(** * pricehubble_poc: the listing-cleaning pipeline of [scripts/data_processing.py]

    A shallow embedding of [DataProcessor]: the loader ([load_data]), the
    logging helper ([log_errors]) and the six cleaning stages run by
    [validate_and_clean], followed by the properties of the pipeline.

    Modelling choices, fixed once here:
    - a Python [str] is a Rocq [string] holding its UTF-8 bytes; its
      characters are the code points these bytes encode, and the digit
      classes of the regular expressions, of [float] and of [str.isnumeric]
      are those of the Unicode database (version 14.0);
    - a float is an IEEE 754 binary64 value, [spec_float] with precision 53
      and maximal exponent 1024, rounded to nearest even as numpy does;
    - a DataFrame is a list of column names and a list of labelled rows; a
      Series is the list of labelled cells of one column.  The label of a row
      is its pandas index label, which boolean indexing keeps;
    - a cell is null, an integer, a float or a string (JSON booleans and
      nested values in cells are outside the fragment);
    - the log is the list of messages handed to [logging.error], oldest
      first; an exception leaves the state reached when it was raised. *)

From Stdlib Require Import ZArith String Ascii List Sorted.
From Corelib Require Import SpecFloat.
From stdpp Require Import base option list strings gmap pretty.

Local Open Scope string_scope.
Local Open Scope Z_scope.
Local Open Scope list_scope.

(** ** binary64 floats *)

Module Float64.

Definition prec : Z := 53.
Definition emax : Z := 1024.

Definition nan : spec_float := S754_nan.

Definition is_nan (f : spec_float) : bool :=
  match f with S754_nan => true | _ => false end.

(** [float(z)] for a Python int, and numpy's int64 to float64 conversion. *)
Definition of_Z (z : Z) : spec_float := binary_normalize prec emax z 0 false.

Definition div : spec_float -> spec_float -> spec_float := SFdiv prec emax.

Definition leb : spec_float -> spec_float -> bool := SFleb.

(** The float nearest to [m * 10 ^ e], as [float] computes it from a
    decimal numeral with digits [m] and decimal exponent [e]; [neg] is the
    sign of the numeral. *)
Definition of_decimal (neg : bool) (m : N) (e : Z) : spec_float :=
  match m with
  | N0 => S754_zero neg
  | Npos p =>
      if 0 <=? e
      then binary_normalize prec emax
             ((if neg then Z.neg p else Z.pos p) * 10 ^ e) 0 false
      else SFdiv prec emax (S754_finite neg p 0)
             (S754_finite false (Z.to_pos (10 ^ (- e))) 0)
  end.

End Float64.

Abbreviation float := spec_float.

(** ** Python strings and the regular expressions of the script *)

(** The characters of a [str] are Unicode code points.  The two classes of
    characters the script relies on are read off the Unicode database,
    version 14.0: the decimal digits (what [\d] matches in a [str] pattern
    and what [float] reads as the digits 0 to 9), and the numeric characters
    (what [str.isnumeric] accepts). *)
Module Unicode.

(** The runs of decimal digits, first and last code point of each; within a
    run the digits 0 to 9 follow each other, possibly several times. *)
Definition decimal_ranges : list (N * N) :=
  [
    (48, 57); (1632, 1641); (1776, 1785); (1984, 1993); (2406, 2415); (2534,
    2543); (2662, 2671); (2790, 2799); (2918, 2927); (3046, 3055); (3174, 3183);
    (3302, 3311); (3430, 3439); (3558, 3567); (3664, 3673); (3792, 3801); (3872,
    3881); (4160, 4169); (4240, 4249); (6112, 6121); (6160, 6169); (6470, 6479);
    (6608, 6617); (6784, 6793); (6800, 6809); (6992, 7001); (7088, 7097); (7232,
    7241); (7248, 7257); (42528, 42537); (43216, 43225); (43264, 43273); (43472,
    43481); (43504, 43513); (43600, 43609); (44016, 44025); (65296, 65305);
    (66720, 66729); (68912, 68921); (69734, 69743); (69872, 69881); (69942,
    69951); (70096, 70105); (70384, 70393); (70736, 70745); (70864, 70873);
    (71248, 71257); (71360, 71369); (71472, 71481); (71904, 71913); (72016,
    72025); (72784, 72793); (73040, 73049); (73120, 73129); (92768, 92777);
    (92864, 92873); (93008, 93017); (120782, 120831); (123200, 123209); (123632,
    123641); (125264, 125273); (130032, 130041)
  ]%N.

(** The runs of numeric characters, first and last code point of each. *)
Definition numeric_ranges : list (N * N) :=
  [
    (48, 57); (178, 179); (185, 185); (188, 190); (1632, 1641); (1776, 1785);
    (1984, 1993); (2406, 2415); (2534, 2543); (2548, 2553); (2662, 2671); (2790,
    2799); (2918, 2927); (2930, 2935); (3046, 3058); (3174, 3183); (3192, 3198);
    (3302, 3311); (3416, 3422); (3430, 3448); (3558, 3567); (3664, 3673); (3792,
    3801); (3872, 3891); (4160, 4169); (4240, 4249); (4969, 4988); (5870, 5872);
    (6112, 6121); (6128, 6137); (6160, 6169); (6470, 6479); (6608, 6618); (6784,
    6793); (6800, 6809); (6992, 7001); (7088, 7097); (7232, 7241); (7248, 7257);
    (8304, 8304); (8308, 8313); (8320, 8329); (8528, 8578); (8581, 8585); (9312,
    9371); (9450, 9471); (10102, 10131); (11517, 11517); (12295, 12295); (12321,
    12329); (12344, 12346); (12690, 12693); (12832, 12841); (12872, 12879);
    (12881, 12895); (12928, 12937); (12977, 12991); (13317, 13317); (13443,
    13443); (14378, 14378); (15181, 15181); (19968, 19968); (19971, 19971);
    (19975, 19975); (19977, 19977); (20061, 20061); (20108, 20108); (20116,
    20116); (20118, 20118); (20159, 20160); (20191, 20191); (20200, 20200);
    (20237, 20237); (20336, 20336); (20740, 20740); (20806, 20806); (20841,
    20841); (20843, 20843); (20845, 20845); (21313, 21313); (21315, 21317);
    (21324, 21324); (21441, 21444); (22235, 22235); (22769, 22769); (22777,
    22777); (24186, 24186); (24318, 24319); (24332, 24334); (24336, 24336);
    (25342, 25342); (25420, 25420); (26578, 26578); (28422, 28422); (29590,
    29590); (30334, 30334); (32902, 32902); (33836, 33836); (36014, 36014);
    (36019, 36019); (36144, 36144); (38433, 38433); (38470, 38470); (38476,
    38476); (38520, 38520); (38646, 38646); (42528, 42537); (42726, 42735);
    (43056, 43061); (43216, 43225); (43264, 43273); (43472, 43481); (43504,
    43513); (43600, 43609); (44016, 44025); (63851, 63851); (63859, 63859);
    (63864, 63864); (63922, 63922); (63953, 63953); (63955, 63955); (63997,
    63997); (65296, 65305); (65799, 65843); (65856, 65912); (65930, 65931);
    (66273, 66299); (66336, 66339); (66369, 66369); (66378, 66378); (66513,
    66517); (66720, 66729); (67672, 67679); (67705, 67711); (67751, 67759);
    (67835, 67839); (67862, 67867); (68028, 68029); (68032, 68047); (68050,
    68095); (68160, 68168); (68221, 68222); (68253, 68255); (68331, 68335);
    (68440, 68447); (68472, 68479); (68521, 68527); (68858, 68863); (68912,
    68921); (69216, 69246); (69405, 69414); (69457, 69460); (69573, 69579);
    (69714, 69743); (69872, 69881); (69942, 69951); (70096, 70105); (70113,
    70132); (70384, 70393); (70736, 70745); (70864, 70873); (71248, 71257);
    (71360, 71369); (71472, 71483); (71904, 71922); (72016, 72025); (72784,
    72812); (73040, 73049); (73120, 73129); (73664, 73684); (74752, 74862);
    (92768, 92777); (92864, 92873); (93008, 93017); (93019, 93025); (93824,
    93846); (119520, 119539); (119648, 119672); (120782, 120831); (123200,
    123209); (123632, 123641); (125127, 125135); (125264, 125273); (126065,
    126123); (126125, 126127); (126129, 126132); (126209, 126253); (126255,
    126269); (127232, 127244); (130032, 130041); (131073, 131073); (131172,
    131172); (131298, 131298); (131361, 131361); (133418, 133418); (133507,
    133507); (133516, 133516); (133532, 133532); (133866, 133866); (133885,
    133885); (133913, 133913); (140176, 140176); (141720, 141720); (146203,
    146203); (156269, 156269); (194704, 194704)
  ]%N.

Definition in_range (cp : N) (r : N * N) : bool :=
  (fst r <=? cp)%N && (cp <=? snd r)%N.

(** The value of a decimal digit. *)
Definition decimal (cp : N) : option N :=
  match List.find (in_range cp) decimal_ranges with
  | Some r => Some ((cp - fst r) mod 10)%N
  | None => None
  end.

Definition is_decimal (cp : N) : bool :=
  match decimal cp with Some _ => true | None => false end.

Definition is_numeric (cp : N) : bool := existsb (in_range cp) numeric_ranges.

(** The payload of a continuation byte. *)
Definition continuation (c : ascii) : option N :=
  let n := N_of_ascii c in
  if (128 <=? n)%N && (n <? 192)%N then Some (n - 128)%N else None.

(** The code points of a string held as UTF-8 bytes.  A three-byte sequence
    may hold a surrogate, as a [str] decoded from JSON can; a byte that
    starts no sequence, which a decoded text never has, stands alone. *)
Fixpoint decode (s : string) : list N :=
  match s with
  | EmptyString => []
  | String a r =>
      let n := N_of_ascii a in
      let alone := (56320 + n)%N :: decode r in
      if (n <? 128)%N then n :: decode r
      else
        match r with
        | String b r1 =>
            match continuation b with
            | Some x =>
                if (192 <=? n)%N && (n <? 224)%N
                then ((n - 192) * 64 + x)%N :: decode r1
                else
                  match r1 with
                  | String c r2 =>
                      match continuation c with
                      | Some y =>
                          if (224 <=? n)%N && (n <? 240)%N
                          then ((n - 224) * 4096 + x * 64 + y)%N :: decode r2
                          else
                            match r2 with
                            | String d r3 =>
                                match continuation d with
                                | Some z =>
                                    if (240 <=? n)%N && (n <? 248)%N
                                    then ((n - 240) * 262144 + x * 4096 +
                                          y * 64 + z)%N :: decode r3
                                    else alone
                                | None => alone
                                end
                            | EmptyString => alone
                            end
                      | None => alone
                      end
                  | EmptyString => alone
                  end
            | None => alone
            end
        | EmptyString => alone
        end
  end.

End Unicode.

(** [\d] on a character. *)
Definition is_digit (cp : N) : bool := Unicode.is_decimal cp.

Definition digit_val (cp : N) : N := default 0%N (Unicode.decimal cp).

(** The longest prefix of digits, and what follows it. *)
Fixpoint span_digits (l : list N) : list N * list N :=
  match l with
  | c :: r =>
      if is_digit c
      then let '(d, rest) := span_digits r in (c :: d, rest)
      else ([], l)
  | [] => ([], [])
  end.

Definition all_digits (l : list N) : bool := forallb is_digit l.

Definition has_digit (l : list N) : bool := existsb is_digit l.

(** Value of a run of digits, most significant first, continuing [acc]. *)
Fixpoint digits_val (acc : N) (l : list N) : N :=
  match l with
  | [] => acc
  | c :: r => digits_val (10 * acc + digit_val c)%N r
  end.

(** The full stop. *)
Definition dot : N := 46%N.

(** [re.search] with the price pattern (a run of digits, an optional dot,
    a possibly empty run of digits) on the characters of a string: the
    leftmost match, each quantifier greedy.  The match starts at the first
    digit, takes the whole run of digits, then a dot when one follows, then
    the run of digits after it.  The result is the integer digits, whether
    the dot is there, and the digits after the dot. *)
Fixpoint re_search_price (l : list N) : option (list N * bool * list N) :=
  match l with
  | [] => None
  | c :: r =>
      if is_digit c then
        let '(ip, rest) := span_digits l in
        match rest with
        | c' :: rest' =>
            if (c' =? dot)%N
            then Some (ip, true, fst (span_digits rest'))
            else Some (ip, false, [])
        | [] => Some (ip, false, [])
        end
      else re_search_price r
  end.

(** The text of a match, group 1 of the pattern. *)
Definition match_text (m : list N * bool * list N) : list N :=
  let '(ip, has_dot, fp) := m in ip ++ (if has_dot then [dot] else []) ++ fp.

(** [float(text)] for the text of a match: digits, optional dot, digits. *)
Definition float_of_match (m : list N * bool * list N) : float :=
  let '(ip, _, fp) := m in
  Float64.of_decimal false (digits_val (digits_val 0 ip) fp)
    (- Z.of_nat (length fp)).

(** [str.isnumeric()]: not empty and every character numeric. *)
Definition str_isnumeric (s : string) : bool :=
  match Unicode.decode s with
  | [] => false
  | l => forallb Unicode.is_numeric l
  end.

(** [DATE_PATTERN.match(s)] for [^\d{4}-\d{2}-\d{2}$]: the dollar also
    matches before a newline that ends the string. *)
Definition date_match (s : string) : bool :=
  match Unicode.decode s with
  | y1 :: y2 :: y3 :: y4 :: h1 :: m1 :: m2 :: h2 :: d1 :: d2 :: rest =>
      is_digit y1 && is_digit y2 && is_digit y3 && is_digit y4 &&
      (h1 =? 45)%N && is_digit m1 && is_digit m2 && (h2 =? 45)%N &&
      is_digit d1 && is_digit d2 &&
      match rest with
      | [] => true
      | [c] => (c =? 10)%N
      | _ => false
      end
  | _ => false
  end.

(** ** Cells, Series and DataFrames *)

Inductive value : Type :=
  | VNull                 (* None, or the NaN standing for a missing cell *)
  | VInt (z : Z)
  | VFloat (f : float)
  | VStr (s : string).

(** [pd.isnull] on a cell. *)
Definition value_isnull (v : value) : bool :=
  match v with
  | VNull => true
  | VFloat f => Float64.is_nan f
  | _ => false
  end.

Definition is_str (v : value) : bool :=
  match v with VStr _ => true | _ => false end.

Inductive exn : Type :=
  | KeyError (key : string)
  | TypeError
  | AttributeError
  | ValueError (msg : string)
  | JSONDecodeError
  | FileNotFoundError
  | Unmodelled.           (* the input leaves the fragment described above *)

Inductive result (A : Type) : Type :=
  | Ok (a : A)
  | Raise (e : exn).
Arguments Ok {A} a.
Arguments Raise {A} e.

#[global] Instance result_ret : MRet result := fun A a => Ok a.
#[global] Instance result_bind : MBind result := fun A B f r =>
  match r with Ok a => f a | Raise e => Raise e end.

(** A Series: the cells of one column, each under the label of its row. *)
Definition Series (A : Type) : Type := list (nat * A).

Definition smap {A B} (f : A -> B) (s : Series A) : Series B :=
  map (fun '(i, a) => (i, f a)) s.

(** Element-wise operation that may raise: the first failing cell raises. *)
Fixpoint smapM {A B} (f : A -> result B) (s : Series A) : result (Series B) :=
  match s with
  | [] => Ok []
  | (i, a) :: s' =>
      b ← f a; bs ← smapM f s'; Ok ((i, b) :: bs)
  end.

Definition index {A} (s : Series A) : list nat := map fst s.
Definition values {A} (s : Series A) : list A := map snd s.

(** [s.any()] and [~s] on a boolean Series. *)
Definition any (s : Series bool) : bool := existsb snd s.
Definition invert (s : Series bool) : Series bool := smap negb s.

Record DataFrame : Type := mkDF {
  columns : list string;
  rows : list (nat * gmap string value)
}.

(** The cell of a row under a column; a key the row lacks reads as null. *)
Definition cell (r : gmap string value) (c : string) : value :=
  default VNull (r !! c).

Definition has_column (df : DataFrame) (c : string) : bool :=
  bool_decide (c ∈ columns df).

(** [df[c]] *)
Definition getitem (df : DataFrame) (c : string) : result (Series value) :=
  if has_column df c
  then Ok (map (fun '(i, r) => (i, cell r c)) (rows df))
  else Raise (KeyError c).

(** [df[c] = s], for a Series [s] over the index of [df]: an existing column
    is overwritten in place, a new one goes last. *)
Definition setitem (df : DataFrame) (c : string) (s : Series value) : DataFrame :=
  {| columns := if has_column df c then columns df else columns df ++ [c];
     rows := zip_with (fun '(i, r) v => (i, <[c := v]> r)) (rows df) (values s) |}.

(** [df.drop(columns=c, errors=...)] *)
Definition drop (c : string) (ignore : bool) (df : DataFrame) : result DataFrame :=
  if has_column df c
  then Ok {| columns := List.filter (fun c' => negb (String.eqb c' c)) (columns df);
             rows := map (fun '(i, r) => (i, delete c r)) (rows df) |}
  else if ignore then Ok df else Raise (KeyError c).

(** [df[mask]] for a boolean Series over the index of [df]: the rows under a
    true entry, in their order and under their labels. *)
Fixpoint select {A} (mask : list bool) (l : list A) : list A :=
  match mask, l with
  | b :: mask', x :: l' => if b then x :: select mask' l' else select mask' l'
  | _, _ => []
  end.

Definition boolean_index (df : DataFrame) (mask : Series bool) : DataFrame :=
  {| columns := columns df; rows := select (values mask) (rows df) |}.

(** *** Element-wise operations used by the stages *)

(** [pd.Series.astype(str).str.isnumeric()] on a cell.  The text of an int
    is its decimal numeral; the text of a null ([None], [nan]) and the text
    of a float (which always holds a dot, an exponent, [inf] or [nan]) are
    not numeric.  pandas stores the ints of a column that also holds a null
    or a float as floats: such a column has a row that fails this test
    either way, and [log_errors] only asks whether some row fails. *)
Definition astype_str_isnumeric (v : value) : bool :=
  match v with
  | VStr s => str_isnumeric s
  | VInt z => str_isnumeric (pretty z)
  | VNull | VFloat _ => false
  end.

(** [pd.Series.astype(str).str.match(DATE_PATTERN)] on a cell. *)
Definition astype_str_match_date (v : value) : bool :=
  match v with
  | VStr s => date_match s
  | VInt z => date_match (pretty z)
  | VNull | VFloat _ => false
  end.

(** [pd.Series.isin(valid)] on a cell, for a list of strings. *)
Definition isin_cell (valid : list string) (v : value) : bool :=
  match v with
  | VStr s => bool_decide (s ∈ valid)
  | _ => false
  end.

(** [lo <= x <= hi] on a float, the bounds being Python ints. *)
Definition between_float (lo hi : Z) (x : float) : bool :=
  Float64.leb (Float64.of_Z lo) x && Float64.leb x (Float64.of_Z hi).

(** [pd.Series.between(lo, hi)] on a cell: a null is outside every interval,
    a string cannot be compared with an int. *)
Definition between_cell (lo hi : Z) (v : value) : result bool :=
  match v with
  | VNull => Ok false
  | VInt z => Ok ((lo <=? z) && (z <=? hi))
  | VFloat f => Ok (between_float lo hi f)
  | VStr _ => Raise TypeError
  end.

Definition to_float (v : value) : float :=
  match v with
  | VInt z => Float64.of_Z z
  | VFloat f => f
  | _ => Float64.nan
  end.

(** One row of [price / living_area].  A row with a null on either side is
    NaN (pandas masks it, whatever the other side holds); otherwise a string
    on either side raises, and numbers divide as float64 (a zero divisor
    gives an infinity or NaN, as numpy does for numeric columns). *)
Definition truediv_cell (p a : value) : result float :=
  if value_isnull p || value_isnull a then Ok Float64.nan
  else if is_str p || is_str a then Raise TypeError
  else Ok (Float64.div (to_float p) (to_float a)).

(** [p / a] for two Series over the same index. *)
Fixpoint truediv (p a : Series value) : result (Series float) :=
  match p, a with
  | (i, x) :: p', (_, y) :: a' =>
      q ← truediv_cell x y; qs ← truediv p' a'; Ok ((i, q) :: qs)
  | _, _ => Ok []
  end.

Definition is_none (v : value) : bool :=
  match v with VNull => true | _ => false end.

(** [s.str]: the accessor is there for a column of dtype object, one that
    holds a string or nothing but [None]; on a numeric column (some number
    and no string) pandas raises [AttributeError]. *)
Definition str_accessor (s : Series value) : result (Series value) :=
  if existsb is_str (values s) || forallb is_none (values s)
  then Ok s else Raise AttributeError.

(** [s.str.extract(pattern, expand=False).astype(float)] on a cell: the
    float of the first match in a string; NaN when nothing matches and for a
    cell that is not a string. *)
Definition extract_price (v : value) : value :=
  match v with
  | VStr s =>
      match re_search_price (Unicode.decode s) with
      | Some m => VFloat (float_of_match m)
      | None => VFloat Float64.nan
      end
  | _ => VFloat Float64.nan
  end.

(** ** The processor: its record set, the log, and exceptions *)

Record state : Type := mkState {
  data : DataFrame;          (* self.data *)
  log : list string          (* what logging.error has written to LOG_FILE *)
}.

Definition M (A : Type) : Type := state -> result A * state.

#[global] Instance M_ret : MRet M := fun A a st => (Ok a, st).
#[global] Instance M_bind : MBind M := fun A B f m st =>
  match m st with
  | (Ok a, st') => f a st'
  | (Raise e, st') => (Raise e, st')
  end.

Definition get_data : M DataFrame := fun st => (Ok (data st), st).
Definition set_data (df : DataFrame) : M unit :=
  fun st => (Ok tt, {| data := df; log := log st |}).
Definition lift {A} (r : result A) : M A := fun st => (r, st).

(** [logging.error(msg)] *)
Definition logging_error (msg : string) : M unit :=
  fun st => (Ok tt, {| data := data st; log := log st ++ [msg] |}).

Definition VALID_PROPERTY_TYPES : list string := ["apartment"; "house"].

(** [log_errors(condition, message)] *)
Definition log_errors (condition : Series bool) (message : string) : M unit :=
  if any condition then
    let indices := String.concat ", " (map pretty (index condition)) in
    logging_error (message +:+ " Indices: " +:+ indices)
  else mret tt.

Definition validate_id_column : M unit :=
  df ← get_data;
  ids ← lift (getitem df "id");
  log_errors (smap value_isnull ids) "Null IDs found.";;
  df ← get_data;
  ids ← lift (getitem df "id");
  log_errors (invert (smap astype_str_isnumeric ids))
    "ID is not a string or numeric.".

Definition validate_clean_price : M unit :=
  df ← get_data;
  if has_column df "raw_price" then
    raw ← lift (getitem df "raw_price");
    raw ← lift (str_accessor raw);
    set_data (setitem df "price" (smap extract_price raw));;
    df ← get_data;
    price ← lift (getitem df "price");
    log_errors (smap value_isnull price) "Invalid or null prices found.";;
    df ← get_data;
    df ← lift (drop "raw_price" false df);
    set_data df
  else logging_error "raw_price column missing.".

Definition filter_by_price_per_sqm : M unit :=
  df ← get_data;
  price ← lift (getitem df "price");
  area ← lift (getitem df "living_area");
  ratio ← lift (truediv price area);
  let valid_offers := smap (between_float 500 15000) ratio in
  set_data (boolean_index df valid_offers).

Definition validate_living_area : M unit :=
  df ← get_data;
  area ← lift (getitem df "living_area");
  inside ← lift (smapM (between_cell 10 500) area);
  let invalid_area := invert inside in
  log_errors invalid_area "Invalid living_area values.";;
  df ← get_data;
  set_data (boolean_index df (invert invalid_area)).

Definition validate_property_type : M unit :=
  let valid_types := VALID_PROPERTY_TYPES in
  df ← get_data;
  types ← lift (getitem df "property_type");
  let invalid_types := invert (smap (isin_cell valid_types) types) in
  log_errors invalid_types
    "Invalid property types. Only 'apartment' or 'house' are allowed.".

Definition validate_scraping_date : M unit :=
  df ← get_data;
  dates ← lift (getitem df "scraping_date");
  let invalid_dates := invert (smap astype_str_match_date dates) in
  log_errors invalid_dates
    "Invalid date formats in scraping_date. Expected format 'YYYY-MM-DD'.".

(** [validate_and_clean]: the six stages, in the order of the source. *)
Definition validate_and_clean : M unit :=
  validate_id_column;;
  validate_clean_price;;
  validate_living_area;;
  filter_by_price_per_sqm;;
  validate_property_type;;
  validate_scraping_date.

(** ** JSON values and [json.loads] *)

#[local] Set Warnings "-register-all".
Inductive json : Type :=
  | JNull
  | JBool (b : bool)
  | JInt (z : Z)
  | JFloat (f : float)
  | JStr (s : string)
  | JList (l : list json)
  | JObj (members : list (string * json)).

Module Json.

(** The digits of a JSON number are the ASCII digits. *)
Definition is_digit (c : ascii) : bool :=
  (48 <=? nat_of_ascii c)%nat && (nat_of_ascii c <=? 57)%nat.

Definition digit_val (c : ascii) : N := N.of_nat (nat_of_ascii c - 48).

(** The longest prefix of digits, and what follows it. *)
Fixpoint span_digits (s : string) : string * string :=
  match s with
  | String c r =>
      if is_digit c
      then let '(d, rest) := span_digits r in (String c d, rest)
      else (EmptyString, s)
  | EmptyString => (EmptyString, EmptyString)
  end.

(** Value of a run of digits, most significant first, continuing [acc]. *)
Fixpoint digits_val (acc : N) (s : string) : N :=
  match s with
  | EmptyString => acc
  | String c r => digits_val (10 * acc + digit_val c)%N r
  end.

Definition is_ws (c : ascii) : bool :=
  match c with
  | " "%char | "009"%char | "010"%char | "013"%char => true
  | _ => false
  end.

Fixpoint skip_ws (s : string) : string :=
  match s with
  | String c r => if is_ws c then skip_ws r else s
  | EmptyString => s
  end.

Fixpoint strip_prefix (p s : string) : option string :=
  match p, s with
  | EmptyString, _ => Some s
  | String a p', String b s' => if Ascii.eqb a b then strip_prefix p' s' else None
  | _, _ => None
  end.

Definition hex_val (c : ascii) : option N :=
  let n := N.of_nat (nat_of_ascii c) in
  if (48 <=? n)%N && (n <=? 57)%N then Some (n - 48)%N
  else if (65 <=? n)%N && (n <=? 70)%N then Some (n - 55)%N
  else if (97 <=? n)%N && (n <=? 102)%N then Some (n - 87)%N
  else None.

Definition hex4 (a b c d : ascii) : option N :=
  x ← hex_val a; y ← hex_val b; z ← hex_val c; w ← hex_val d;
  Some (((x * 16 + y) * 16 + z) * 16 + w)%N.

Definition byte (n : N) : string := String (ascii_of_N n) EmptyString.

(** The UTF-8 bytes of a code point. *)
Definition utf8 (cp : N) : string :=
  if (cp <? 128)%N then byte cp
  else if (cp <? 2048)%N then
    byte (192 + cp / 64) +:+ byte (128 + cp mod 64)
  else if (cp <? 65536)%N then
    byte (224 + cp / 4096) +:+ byte (128 + (cp / 64) mod 64) +:+
    byte (128 + cp mod 64)
  else
    byte (240 + cp / 262144) +:+ byte (128 + (cp / 4096) mod 64) +:+
    byte (128 + (cp / 64) mod 64) +:+ byte (128 + cp mod 64).

Definition simple_escape (c : ascii) : option ascii :=
  match c with
  | "034"%char => Some "034"%char
  | "\"%char => Some "\"%char
  | "/"%char => Some "/"%char
  | "b"%char => Some "008"%char
  | "f"%char => Some "012"%char
  | "n"%char => Some "010"%char
  | "r"%char => Some "013"%char
  | "t"%char => Some "009"%char
  | _ => None
  end.

Definition cons_str (t : string) (r : option (string * string)) :
    option (string * string) :=
  '(u, rest) ← r; Some (t +:+ u, rest).

(** The body of a string literal, after its opening quote: the decoded
    text and what follows the closing quote. *)
Fixpoint scanstring (s : string) : option (string * string) :=
  match s with
  | EmptyString => None
  | String "034"%char r => Some (EmptyString, r)
  | String "\"%char EmptyString => None
  | String "\"%char (String "u"%char
      (String a (String b (String c (String d r))))) =>
      match hex4 a b c d with
      | None => None
      | Some hi =>
          match r with
          | String "\"%char (String "u"%char
              (String a' (String b' (String c' (String d' r'))))) =>
              match hex4 a' b' c' d' with
              | Some lo =>
                  if (55296 <=? hi)%N && (hi <=? 56319)%N &&
                     (56320 <=? lo)%N && (lo <=? 57343)%N
                  then cons_str
                         (utf8 (65536 + (hi - 55296) * 1024 + (lo - 56320)))
                         (scanstring r')
                  else cons_str (utf8 hi) (scanstring r)
              | None => cons_str (utf8 hi) (scanstring r)
              end
          | _ => cons_str (utf8 hi) (scanstring r)
          end
      end
  | String "\"%char (String e r) =>
      match simple_escape e with
      | Some c => cons_str (String c EmptyString) (scanstring r)
      | None => None
      end
  | String c r =>
      if (nat_of_ascii c <? 32)%nat then None
      else cons_str (String c EmptyString) (scanstring r)
  end.

(** A number at the head of [s]: an optional minus, [0] or a run of digits
    not starting with [0], then an optional fraction and an optional
    exponent, each taken only when complete. *)
Definition scan_number (s : string) : option (json * string) :=
  let '(neg, s1) :=
    match s with String "-"%char r => (true, r) | _ => (false, s) end in
  let '(ip, s2) :=
    match s1 with
    | String "0"%char r => ("0", r)
    | _ => span_digits s1
    end in
  match ip with
  | EmptyString => None
  | _ =>
      let '(fp, s3) :=
        match s2 with
        | String "."%char r =>
            match span_digits r with
            | (EmptyString, _) => (None, s2)
            | (d, r') => (Some d, r')
            end
        | _ => (None, s2)
        end in
      let '(ex, s4) :=
        match s3 with
        | String c r =>
            if Ascii.eqb c "e" || Ascii.eqb c "E" then
              let '(eneg, r1) :=
                match r with
                | String "-"%char r' => (true, r')
                | String "+"%char r' => (false, r')
                | _ => (false, r)
                end in
              match span_digits r1 with
              | (EmptyString, _) => (None, s3)
              | (d, r') =>
                  let e := Z.of_N (digits_val 0 d) in
                  (Some (if eneg then - e else e), r')
              end
            else (None, s3)
        | EmptyString => (None, s3)
        end in
      match fp, ex with
      | None, None =>
          let z := Z.of_N (digits_val 0 ip) in
          Some (JInt (if neg then - z else z), s4)
      | _, _ =>
          let fd := default EmptyString fp in
          Some (JFloat (Float64.of_decimal neg
                          (digits_val (digits_val 0 ip) fd)
                          (default 0 ex - Z.of_nat (String.length fd))),
                s4)
      end
  end.

Section Compound.
(** The decoder of one value, applied to the elements of an array and to
    the values of an object. *)
Variable scan_once : string -> option (json * string).

(** The elements of an array whose first element starts [s]. *)
Fixpoint scan_elements (n : nat) (s : string) : option (list json * string) :=
  match n with
  | O => None
  | S n' =>
      '(v, r) ← scan_once s;
      match skip_ws r with
      | String "]"%char r' => Some ([v], r')
      | String ","%char r' =>
          '(vs, r'') ← scan_elements n' (skip_ws r'); Some (v :: vs, r'')
      | _ => None
      end
  end.

(** The members of an object whose first key starts [s]. *)
Fixpoint scan_members (n : nat) (s : string) :
    option (list (string * json) * string) :=
  match n with
  | O => None
  | S n' =>
      match s with
      | String "034"%char r =>
          '(k, r1) ← scanstring r;
          match skip_ws r1 with
          | String ":"%char r2 =>
              '(v, r3) ← scan_once (skip_ws r2);
              match skip_ws r3 with
              | String "}"%char r' => Some ([(k, v)], r')
              | String ","%char r' =>
                  '(kvs, r'') ← scan_members n' (skip_ws r');
                  Some ((k, v) :: kvs, r'')
              | _ => None
              end
          | _ => None
          end
      | _ => None
      end
  end.
End Compound.

(** One JSON value at the head of [s]; the fuel bounds the nesting. *)
Fixpoint scan_once (fuel : nat) (s : string) : option (json * string) :=
  match fuel with
  | O => None
  | S n =>
      match s with
      | String "034"%char r => '(t, r') ← scanstring r; Some (JStr t, r')
      | String "{"%char r =>
          match skip_ws r with
          | String "}"%char r' => Some (JObj [], r')
          | r1 => '(kvs, r') ← scan_members (scan_once n) n r1; Some (JObj kvs, r')
          end
      | String "["%char r =>
          match skip_ws r with
          | String "]"%char r' => Some (JList [], r')
          | r1 => '(vs, r') ← scan_elements (scan_once n) n r1; Some (JList vs, r')
          end
      | _ =>
          match strip_prefix "null" s, strip_prefix "true" s,
                strip_prefix "false" s with
          | Some r, _, _ => Some (JNull, r)
          | _, Some r, _ => Some (JBool true, r)
          | _, _, Some r => Some (JBool false, r)
          | _, _, _ =>
              match scan_number s with
              | Some res => Some res
              | None =>
                  match strip_prefix "NaN" s, strip_prefix "Infinity" s,
                        strip_prefix "-Infinity" s with
                  | Some r, _, _ => Some (JFloat S754_nan, r)
                  | _, Some r, _ => Some (JFloat (S754_infinity false), r)
                  | _, _, Some r => Some (JFloat (S754_infinity true), r)
                  | _, _, _ => None
                  end
              end
          end
      end
  end.

(** [json.loads(s)] for a [str]: [None] stands for [JSONDecodeError]. *)
Definition loads (s : string) : option json :=
  '(v, r) ← scan_once (S (String.length s)) (skip_ws s);
  match skip_ws r with
  | EmptyString => Some v
  | _ => None
  end.

(** [json.dumps(s)] for a [str] of printable ASCII: the text between
    quotes, quotes and backslashes escaped. *)
Fixpoint escape (s : string) : string :=
  match s with
  | EmptyString => EmptyString
  | String "034"%char r => String "\" (String "034" (escape r))
  | String "\"%char r => String "\" (String "\" (escape r))
  | String c r => String c (escape r)
  end.

Definition dumps_str (s : string) : string :=
  String "034" (escape s +:+ String "034" EmptyString).

End Json.

(** Reading aid for JSON texts in examples: every apostrophe of [s] becomes
    a double quote. *)
Fixpoint dq (s : string) : string :=
  match s with
  | EmptyString => EmptyString
  | String "'"%char r => String "034" (dq r)
  | String c r => String c (dq r)
  end.

(** ** Loading *)

(** [pd.DataFrame(data_list)] for a list of records: the columns are the
    keys in the order they first appear, a row holds null under a key its
    record lacks, the last of several equal keys wins, and the rows are
    labelled 0, 1, 2, ... *)
Definition add_column (cols : list string) (k : string) : list string :=
  if bool_decide (k ∈ cols) then cols else cols ++ [k].

Definition record_columns (recs : list (list (string * value))) : list string :=
  foldl add_column [] (concat (map (map fst) recs)).

Definition null_row (cols : list string) : gmap string value :=
  list_to_map (map (fun c => (c, VNull)) cols).

Definition row_of_record (cols : list string) (rec : list (string * value)) :
    gmap string value :=
  foldl (fun m '(k, v) => <[k := v]> m) (null_row cols) rec.

Definition DataFrame_of_records (recs : list (list (string * value))) : DataFrame :=
  let cols := record_columns recs in
  {| columns := cols;
     rows := imap (fun i rec => (i, row_of_record cols rec)) recs |}.

Definition cell_of_json (j : json) : option value :=
  match j with
  | JNull => Some VNull
  | JInt z => Some (VInt z)
  | JFloat f => Some (VFloat f)
  | JStr s => Some (VStr s)
  | JBool _ | JList _ | JObj _ => None
  end.

Definition record_of_json (j : json) : option (list (string * value)) :=
  match j with
  | JObj members => mapM (fun '(k, v) => c ← cell_of_json v; Some (k, c)) members
  | _ => None
  end.

(** [pd.DataFrame(data_list)] on decoded JSON, inside the fragment: a list
    of objects whose members are null, numbers or strings. *)
Definition DataFrame_of_json (data_list : list json) : result DataFrame :=
  match mapM record_of_json data_list with
  | Some recs => Ok (DataFrame_of_records recs)
  | None => Raise Unmodelled
  end.

Definition lower_char (c : ascii) : ascii :=
  let n := nat_of_ascii c in
  if (65 <=? n)%nat && (n <=? 90)%nat then ascii_of_nat (n + 32) else c.

Fixpoint lower (s : string) : string :=
  match s with
  | EmptyString => EmptyString
  | String c r => String (lower_char c) (lower r)
  end.

(** The pieces of a path between its slashes; [cur] is the piece being read. *)
Fixpoint components (cur : string) (path : string) : list string :=
  match path with
  | EmptyString => [cur]
  | String c r =>
      if Ascii.eqb c "/" then cur :: components EmptyString r
      else components (cur +:+ String c EmptyString) r
  end.

(** [Path(path).name] on a POSIX system: the last piece of the path, empty
    pieces and single dots set aside. *)
Definition path_name (path : string) : string :=
  List.last
    (List.filter (fun p => negb (String.eqb p "") && negb (String.eqb p "."))
       (components EmptyString path))
    EmptyString.

(** The part of [s] from its last dot on. *)
Fixpoint from_last_dot (s : string) : option string :=
  match s with
  | EmptyString => None
  | String c r =>
      match from_last_dot r with
      | Some t => Some t
      | None => if Ascii.eqb c "." then Some s else None
      end
  end.

(** [Path(path).suffix]: the name from its last dot on, when that dot is
    neither the first nor the last character of the name. *)
Definition suffix (path : string) : string :=
  match path_name path with
  | EmptyString => EmptyString
  | String _ r =>
      match from_last_dot r with
      | Some t => if (1 <? String.length t)%nat then t else EmptyString
      | None => EmptyString
      end
  end.

Section Loader.

(** The decoder and the pandas readers are library code: [json_loads s] is
    [json.loads] on a [str], [None] standing for [JSONDecodeError];
    [read_csv] and [read_avro] take the text of the file. *)
Variable json_loads : string -> option json.
Variable read_csv read_avro : string -> result DataFrame.

(** [json.loads(x)] for a Python object [x]: only a [str] is decoded. *)
Definition loads_object (x : json) : result json :=
  match x with
  | JStr s =>
      match json_loads s with
      | Some v => Ok v
      | None => Raise JSONDecodeError
      end
  | _ => Raise TypeError
  end.

(** The [try] block of the JSON branch: the double decoding, and the
    handler of [JSONDecodeError] with its own bare [except]. *)
Definition decode_content (content : string) : result json :=
  match x ← loads_object (JStr content); loads_object x with
  | Raise JSONDecodeError =>
      match loads_object (JStr content) with
      | Ok v => Ok v
      | Raise _ => Raise (ValueError "Unable to parse the provided JSON data.")
      end
  | r => r
  end.

(** [load_data(path)], given the text [content] of the file at [path]. *)
Definition load_data (path content : string) : result DataFrame :=
  let file_ext := lower (suffix path) in
  if String.eqb file_ext ".json" then
    data_list ← decode_content content;
    match data_list with
    | JList l => df ← DataFrame_of_json l; drop "municipality" true df
    | _ => Raise (ValueError "JSON content does not represent a list structure.")
    end
  else if String.eqb file_ext ".csv" then read_csv content
  else if String.eqb file_ext ".avro" then read_avro content
  else Raise (ValueError ("Unsupported file format: " +:+ file_ext)).

(** [DataProcessor(input_path)]: [fs] gives the text of the files that
    exist. *)
Definition DataProcessor_init (fs : string -> option string) (path : string) :
    result DataFrame :=
  match fs path with
  | None => Raise FileNotFoundError
  | Some content => load_data path content
  end.

(** The main block: what [save_processed_data] writes, if it is reached,
    and the log. *)
Definition main (fs : string -> option string) (input_path : string) :
    option DataFrame * list string :=
  match DataProcessor_init fs input_path with
  | Raise _ => (None, [])
  | Ok df =>
      match validate_and_clean {| data := df; log := [] |} with
      | (Ok _, st) => (Some (data st), log st)
      | (Raise _, st) => (None, log st)
      end
  end.

End Loader.

(** ** Row-level readings of the stages, used to state their effect *)

(** The test of [validate_living_area] on one row. *)
Definition area_valid (r : gmap string value) : bool :=
  match between_cell 10 500 (cell r "living_area") with
  | Ok b => b
  | Raise _ => false
  end.

(** The test of [filter_by_price_per_sqm] on one row. *)
Definition ppsqm_valid (r : gmap string value) : bool :=
  match truediv_cell (cell r "price") (cell r "living_area") with
  | Ok q => between_float 500 15000 q
  | Raise _ => false
  end.

(** What [validate_clean_price] makes of one row when the frame has a
    [raw_price] column. *)
Definition clean_row (r : gmap string value) : gmap string value :=
  delete "raw_price" (<["price" := extract_price (cell r "raw_price")]> r).

(** The frame [validate_clean_price] leaves when there is a [raw_price]
    column: a [price] column (added last when new), no [raw_price] column. *)
Definition clean_price_frame (df : DataFrame) : DataFrame :=
  {| columns :=
       List.filter (fun c => negb (String.eqb c "raw_price"))
         (if has_column df "price" then columns df else columns df ++ ["price"]);
     rows := map (fun '(i, r) => (i, clean_row r)) (rows df) |}.

(** The frame after [validate_clean_price], whichever branch it takes. *)
Definition price_cleaned (df : DataFrame) : DataFrame :=
  if has_column df "raw_price" then clean_price_frame df else df.

Definition labels (df : DataFrame) : list nat := map fst (rows df).

(** ** What the price pattern asks of a match *)

Definition starts_with_digit (l : list N) : bool :=
  match l with c :: _ => is_digit c | [] => false end.

Definition starts_with_dot (l : list N) : bool :=
  match l with c :: _ => (c =? dot)%N | [] => false end.

(** [m] is the first match of the price pattern in the characters [l], each
    quantifier greedy: no digit comes before it, its integer part is a run
    of digits that cannot be extended, the dot is taken whenever one
    follows, and the digits after the dot cannot be extended either. *)
Definition first_price_match (l : list N) (m : list N * bool * list N) : Prop :=
  let '(ip, has_dot, fp) := m in
  exists pre post,
    l = pre ++ match_text m ++ post /\
    has_digit pre = false /\
    ip <> [] /\ all_digits ip = true /\ all_digits fp = true /\
    starts_with_digit post = false /\
    (has_dot = false -> fp = [] /\ starts_with_dot post = false).

(** ** What it is to read a decimal numeral as a float *)




(** ** The order of the stages *)

Definition run_stages (l : list (M unit)) : M unit :=
  foldr (fun stage rest => stage;; rest) (mret tt) l.

(** The six stages in the order [validate_and_clean] calls them. *)
Definition stages : list (M unit) :=
  [ validate_id_column; validate_clean_price; validate_living_area;
    filter_by_price_per_sqm; validate_property_type; validate_scraping_date ].

(** The order of the stages as the specification numbers them: the
    price-per-area filter third, the living-area validation fourth. *)
Definition spec_stages : list (M unit) :=
  [ validate_id_column; validate_clean_price; filter_by_price_per_sqm;
    validate_living_area; validate_property_type; validate_scraping_date ].

(** ** The identifiers of a log line, as the specification words them *)

(** The positions, in the record set the stage runs on, of the rows that
    violate the rule. *)
Definition violating_positions (condition : Series bool) : list nat :=
  map fst (List.filter snd (imap (fun pos '(_, b) => (pos, b)) condition)).

Definition spec_log_lines (condition : Series bool) (message : string) : list string :=
  if any condition
  then [message +:+ " Indices: " +:+
        String.concat ", " (map pretty (violating_positions condition))]
  else [].

(** Column [c] cannot be read from [df], nor derived by price cleaning. *)
Definition missing (c : string) (df : DataFrame) : Prop :=
  has_column df c = false /\ (c = "price" -> has_column df "raw_price" = false).

(** ** Growth of the log *)

(** Whatever its outcome, [m] keeps the entries of the log and appends at
    most [k] entries. *)
Definition appends_at_most (k : nat) (m : M unit) : Prop :=
  forall st, exists lines,
    log (snd (m st)) = log st ++ lines /\ (length lines <= k)%nat.

(** The identifiers of a log line written on the frame [df]: the labels of
    all its rows. *)
Definition all_labels_text (df : DataFrame) : string :=
  String.concat ", " (map pretty (labels df)).

(** ** The checks of [scripts/test_scenarios.py] *)

Module TestScenarios.

(** Each check is the condition of one [if] of the script, on the frame
    [cleaned_data] the script has read. *)

(** [ppm.between(500, 15000).all()] for [ppm = price / living_area]. *)
Definition condition_1 (cleaned_data : DataFrame) : result bool :=
  price ← getitem cleaned_data "price";
  area ← getitem cleaned_data "living_area";
  ppm ← truediv price area;
  Ok (forallb snd (smap (between_float 500 15000) ppm)).

(** [cleaned_data['property_type'].isin(['apartment', 'house']).all()] *)
Definition condition_2 (cleaned_data : DataFrame) : result bool :=
  types ← getitem cleaned_data "property_type";
  Ok (forallb snd (smap (isin_cell ["apartment"; "house"]) types)).

(** [cleaned_data['scraping_date'].astype(str).str.match(date_pattern).all()] *)
Definition condition_3 (cleaned_data : DataFrame) : result bool :=
  dates ← getitem cleaned_data "scraping_date";
  Ok (forallb snd (smap astype_str_match_date dates)).

End TestScenarios.

(** ** Sample record sets *)

Module Sample.

(** Two listings with a price: the first passes every test, the second
    has a price per square metre of 0.5 and an unknown property type. *)
Definition priced : DataFrame :=
  DataFrame_of_records
    [ [("id", VStr "1"); ("price", VInt 200000); ("living_area", VInt 100);
       ("property_type", VStr "apartment"); ("scraping_date", VStr "2023-01-01")];
      [("id", VStr "2"); ("price", VInt 50); ("living_area", VInt 100);
       ("property_type", VStr "castle"); ("scraping_date", VStr "bad-date")] ].

(** Three listings with a raw price; the second has no digits in it. *)
Definition raw : DataFrame :=
  DataFrame_of_records
    [ [("id", VStr "7"); ("raw_price", VStr "€ 1234.50 per month");
       ("living_area", VFloat (Float64.of_Z 2));
       ("property_type", VStr "apartment"); ("scraping_date", VStr "2023-01-01")];
      [("id", VStr "8"); ("raw_price", VStr "on request");
       ("living_area", VInt 80);
       ("property_type", VStr "house"); ("scraping_date", VStr "2023-01-02")];
      [("id", VStr "9"); ("raw_price", VStr "CHF 450000.-");
       ("living_area", VInt 90);
       ("property_type", VStr "house"); ("scraping_date", VStr "2023-01-03")] ].

(** Two listings: the first has a price per square metre of 0.5, the
    second passes the range tests and has an unknown property type. *)
Definition shifted : DataFrame :=
  DataFrame_of_records
    [ [("id", VStr "1"); ("price", VInt 50); ("living_area", VInt 100);
       ("property_type", VStr "apartment"); ("scraping_date", VStr "2023-01-01")];
      [("id", VStr "2"); ("price", VInt 200000); ("living_area", VInt 100);
       ("property_type", VStr "castle"); ("scraping_date", VStr "2023-01-02")] ].

(** One listing of 5 square metres at a price of 10. *)
Definition tiny : DataFrame :=
  DataFrame_of_records
    [ [("id", VStr "1"); ("price", VInt 10); ("living_area", VInt 5);
       ("property_type", VStr "house"); ("scraping_date", VStr "2023-01-01")] ].

Definition start (df : DataFrame) : state := {| data := df; log := [] |}.

(** The first row of [priced], as the constructor builds it. *)
Definition priced_first : gmap string value :=
  row_of_record (columns priced)
    [("id", VStr "1"); ("price", VInt 200000); ("living_area", VInt 100);
     ("property_type", VStr "apartment"); ("scraping_date", VStr "2023-01-01")].

(** Two listings, the second without an id. *)
Definition null_id : DataFrame :=
  DataFrame_of_records
    [ [("id", VStr "1"); ("price", VInt 200000); ("living_area", VInt 100);
       ("property_type", VStr "house"); ("scraping_date", VStr "2023-01-01")];
      [("price", VInt 300000); ("living_area", VInt 100);
       ("property_type", VStr "house"); ("scraping_date", VStr "2023-01-02")] ].

(** Two listings whose raw price is a number. *)
Definition numeric_raw : DataFrame :=
  DataFrame_of_records
    [ [("id", VStr "1"); ("raw_price", VInt 200000); ("living_area", VInt 100)];
      [("id", VStr "2"); ("raw_price", VNull); ("living_area", VInt 100)] ].

(** The columns of a listing, and no row: a CSV file with only its header. *)
Definition header_only : DataFrame :=
  {| columns := ["id"; "raw_price"; "living_area"; "property_type"; "scraping_date"];
     rows := [] |}.

(** The text of a JSON array of two listings, each with a municipality. *)
Definition listings_text : string :=
  dq ("[{'id': '1', 'price': 200000, 'living_area': 100, " +:+
      "'property_type': 'apartment', 'scraping_date': '2023-01-01', " +:+
      "'municipality': 'Zurich'}, " +:+
      "{'id': '2', 'price': 50, 'living_area': 100, " +:+
      "'property_type': 'castle', 'scraping_date': 'bad-date', " +:+
      "'municipality': 'Bern'}]").

(** The text of a JSON array of one listing without an id. *)
Definition no_id_text : string :=
  dq ("[{'price': 200000, 'living_area': 100, " +:+
      "'property_type': 'house', 'scraping_date': '2023-01-01'}]").

(** A frame with a municipality column, standing for what [pd.read_csv]
    returns on a CSV file with that header. *)
Definition with_municipality : DataFrame :=
  DataFrame_of_records
    [ [("id", VInt 1); ("price", VInt 200000); ("living_area", VInt 100);
       ("municipality", VStr "Zurich")] ].

Definition csv_reader (content : string) : result DataFrame := Ok with_municipality.
Definition no_reader (content : string) : result DataFrame := Raise Unmodelled.

(** The frame loaded from a file [data/listings.json] holding the JSON text
    [text] encoded once more as a JSON string. *)
Definition loaded (text : string) : DataFrame :=
  match load_data Json.loads no_reader no_reader "data/listings.json"
          (Json.dumps_str text) with
  | Ok df => df
  | Raise _ => {| columns := []; rows := [] |}
  end.

(** A file system with one file, whatever the path. *)
Definition one_file (content : string) (path : string) : option string := Some content.

End Sample.

(** ** Running the stages *)

(** What one call of [log_errors] appends to the log. *)
Definition log_lines (condition : Series bool) (message : string) : list string :=
  if any condition
  then [message +:+ " Indices: " +:+ String.concat ", " (map pretty (index condition))]
  else [].

Definition with_log (st : state) (lines : list string) : state :=
  {| data := data st; log := log st ++ lines |}.

Lemma with_log_nil st : with_log st [] = st.
Proof. destruct st; unfold with_log; simpl; by rewrite app_nil_r. Qed.

Lemma with_log_app st l1 l2 : with_log (with_log st l1) l2 = with_log st (l1 ++ l2).
Proof. unfold with_log; simpl; by rewrite app_assoc. Qed.

Lemma log_errors_run condition message st :
  log_errors condition message st = (Ok tt, with_log st (log_lines condition message)).
Proof.
  unfold log_errors, log_lines.
  destruct (any condition); [reflexivity|].
  by rewrite with_log_nil.
Qed.

Section BindRules.
Context {A B : Type}.

Lemma bind_ok (m : M A) (f : A -> M B) st a st1 :
  m st = (Ok a, st1) -> (m ≫= f) st = f a st1.
Proof. intros H. unfold mbind, M_bind. by rewrite H. Qed.

Lemma bind_raise (m : M A) (f : A -> M B) st e st1 :
  m st = (Raise e, st1) -> (m ≫= f) st = (Raise e, st1).
Proof. intros H. unfold mbind, M_bind. by rewrite H. Qed.

Lemma bind_ok_inv (m : M A) (f : A -> M B) st b st' :
  (m ≫= f) st = (Ok b, st') ->
  exists a st1, m st = (Ok a, st1) /\ f a st1 = (Ok b, st').
Proof.
  unfold mbind, M_bind. destruct (m st) as [[a|e] st1]; [eauto|discriminate].
Qed.
End BindRules.

Lemma validate_id_column_run st :
  validate_id_column st =
  match getitem (data st) "id" with
  | Raise e => (Raise e, st)
  | Ok ids =>
      (Ok tt, with_log st
         (log_lines (smap value_isnull ids) "Null IDs found." ++
          log_lines (invert (smap astype_str_isnumeric ids))
            "ID is not a string or numeric."))
  end.
Proof.
  unfold validate_id_column, mbind, M_bind, get_data, lift.
  destruct (getitem (data st) "id") as [ids|e] eqn:Hid; [|reflexivity].
  rewrite log_errors_run. simpl. rewrite Hid, log_errors_run.
  by rewrite with_log_app.
Qed.

Lemma validate_property_type_run st :
  validate_property_type st =
  match getitem (data st) "property_type" with
  | Raise e => (Raise e, st)
  | Ok types =>
      (Ok tt, with_log st
         (log_lines (invert (smap (isin_cell VALID_PROPERTY_TYPES) types))
            "Invalid property types. Only 'apartment' or 'house' are allowed."))
  end.
Proof.
  unfold validate_property_type, mbind, M_bind, get_data, lift.
  destruct (getitem (data st) "property_type"); [|reflexivity].
  by rewrite log_errors_run.
Qed.

Lemma validate_scraping_date_run st :
  validate_scraping_date st =
  match getitem (data st) "scraping_date" with
  | Raise e => (Raise e, st)
  | Ok dates =>
      (Ok tt, with_log st
         (log_lines (invert (smap astype_str_match_date dates))
            "Invalid date formats in scraping_date. Expected format 'YYYY-MM-DD'."))
  end.
Proof.
  unfold validate_scraping_date, mbind, M_bind, get_data, lift.
  destruct (getitem (data st) "scraping_date"); [|reflexivity].
  by rewrite log_errors_run.
Qed.

Lemma validate_living_area_run st :
  validate_living_area st =
  match getitem (data st) "living_area" with
  | Raise e => (Raise e, st)
  | Ok area =>
      match smapM (between_cell 10 500) area with
      | Raise e => (Raise e, st)
      | Ok inside =>
          (Ok tt,
           {| data := boolean_index (data st) (invert (invert inside));
              log := log st ++ log_lines (invert inside) "Invalid living_area values." |})
      end
  end.
Proof.
  unfold validate_living_area, mbind, M_bind, get_data, lift.
  destruct (getitem (data st) "living_area") as [area|e]; [|reflexivity].
  destruct (smapM (between_cell 10 500) area) as [inside|e]; [|reflexivity].
  by rewrite log_errors_run.
Qed.

Lemma filter_by_price_per_sqm_run st :
  filter_by_price_per_sqm st =
  match getitem (data st) "price" with
  | Raise e => (Raise e, st)
  | Ok price =>
      match getitem (data st) "living_area" with
      | Raise e => (Raise e, st)
      | Ok area =>
          match truediv price area with
          | Raise e => (Raise e, st)
          | Ok ratio =>
              (Ok tt,
               {| data := boolean_index (data st) (smap (between_float 500 15000) ratio);
                  log := log st |})
          end
      end
  end.
Proof.
  unfold filter_by_price_per_sqm, mbind, M_bind, get_data, lift.
  destruct (getitem (data st) "price") as [price|e]; [|reflexivity].
  destruct (getitem (data st) "living_area") as [area|e]; [|reflexivity].
  by destruct (truediv price area).
Qed.

(** *** Series and selections over the rows of a frame *)

Lemma getitem_ok df c :
  has_column df c = true ->
  getitem df c = Ok (map (fun '(i, r) => (i, cell r c)) (rows df)).
Proof. unfold getitem. by intros ->. Qed.

Lemma getitem_missing df c :
  has_column df c = false -> getitem df c = Raise (KeyError c).
Proof. unfold getitem. by intros ->. Qed.

Lemma getitem_inv df c s :
  getitem df c = Ok s ->
  has_column df c = true /\ s = map (fun '(i, r) => (i, cell r c)) (rows df).
Proof.
  unfold getitem. destruct (has_column df c); [|discriminate].
  by intros [= <-].
Qed.

Lemma index_column (l : list (nat * gmap string value)) (g : gmap string value -> value) :
  index (map (fun '(i, r) => (i, g r)) l) = map fst l.
Proof.
  unfold index. rewrite map_map. apply map_ext. by intros [i r].
Qed.

Lemma index_smap {A B} (f : A -> B) (s : Series A) : index (smap f s) = index s.
Proof.
  unfold index, smap. rewrite map_map. apply map_ext. by intros [i a].
Qed.

Lemma values_smap {A B} (f : A -> B) (s : Series A) :
  values (smap f s) = map f (values s).
Proof.
  unfold values, smap. rewrite !map_map. apply map_ext. by intros [i a].
Qed.

Lemma invert_invert (s : Series bool) : invert (invert s) = s.
Proof.
  unfold invert, smap. rewrite map_map. rewrite <- (map_id s) at 2.
  apply map_ext. intros [i b]. by rewrite negb_involutive.
Qed.

Lemma select_map {A} (f : A -> bool) (l : list A) :
  select (map f l) l = List.filter f l.
Proof.
  induction l as [|x l IH]; [reflexivity|].
  simpl. rewrite IH. by destruct (f x).
Qed.

Lemma select_sublist {A} (mask : list bool) (l : list A) :
  select mask l `sublist_of` l.
Proof.
  revert mask. induction l as [|x l IH]; intros [|b mask]; simpl;
    try apply sublist_nil_l.
  destruct b; [apply sublist_skip | apply sublist_cons]; apply IH.
Qed.

Lemma smapM_column {B} (f : value -> result B) (g : gmap string value -> value)
    (l : list (nat * gmap string value)) (s : Series B) :
  smapM f (map (fun '(i, r) => (i, g r)) l) = Ok s ->
  Forall (fun '(_, r) => exists b, f (g r) = Ok b) l /\
  forall d, s =
    map (fun '(i, r) => (i, match f (g r) with Ok b => b | Raise _ => d end)) l.
Proof.
  revert s. induction l as [|[i r] l IH]; intros s; simpl.
  - intros [= <-]. split; [constructor|reflexivity].
  - destruct (f (g r)) as [b|e] eqn:Hb; simpl; [|discriminate].
    destruct (smapM f _) as [bs|e] eqn:Hbs; simpl; [|discriminate].
    intros [= <-]. destruct (IH bs eq_refl) as [Hall Hval]. split.
    + constructor; eauto.
    + intros d. rewrite (Hval d). simpl. by rewrite ?Hb.
Qed.

Lemma truediv_columns (l : list (nat * gmap string value)) (c1 c2 : string)
    (s : Series float) :
  truediv (map (fun '(i, r) => (i, cell r c1)) l)
          (map (fun '(i, r) => (i, cell r c2)) l) = Ok s ->
  Forall (fun '(_, r) => exists q, truediv_cell (cell r c1) (cell r c2) = Ok q) l /\
  forall d, s =
    map (fun '(i, r) =>
           (i, match truediv_cell (cell r c1) (cell r c2) with
               | Ok q => q | Raise _ => d end)) l.
Proof.
  revert s. induction l as [|[i r] l IH]; intros s; simpl.
  - intros [= <-]. split; [constructor|reflexivity].
  - destruct (truediv_cell _ _) as [q|e] eqn:Hq; simpl; [|discriminate].
    destruct (truediv _ _) as [qs|e] eqn:Hqs; simpl; [|discriminate].
    intros [= <-]. destruct (IH qs eq_refl) as [Hall Hval]. split.
    + constructor; eauto.
    + intros d. rewrite (Hval d). simpl. by rewrite ?Hq.
Qed.

Lemma select_column (f : gmap string value -> bool)
    (l : list (nat * gmap string value)) :
  select (values (map (fun '(i, r) => (i, f r)) l)) l =
  List.filter (fun '(_, r) => f r) l.
Proof.
  rewrite <- select_map. f_equal. unfold values. rewrite map_map.
  apply map_ext. by intros [i r].
Qed.

(** The two stages that remove rows, read row by row. *)
Lemma validate_living_area_rows st st' :
  validate_living_area st = (Ok tt, st') ->
  columns (data st') = columns (data st) /\
  has_column (data st) "living_area" = true /\
  Forall (fun '(_, r) => exists b, between_cell 10 500 (cell r "living_area") = Ok b)
    (rows (data st)) /\
  rows (data st') = List.filter (fun '(_, r) => area_valid r) (rows (data st)) /\
  log st' = log st ++
    log_lines (map (fun '(i, r) => (i, negb (area_valid r))) (rows (data st)))
      "Invalid living_area values.".
Proof.
  rewrite validate_living_area_run.
  destruct (getitem _ _) as [area|e] eqn:Harea; [|discriminate].
  apply getitem_inv in Harea as [Hcol ->].
  destruct (smapM _ _) as [inside|e] eqn:Hin; [|discriminate].
  intros [= <-]. simpl.
  destruct (smapM_column _ _ _ _ Hin) as [Hall Hval].
  repeat split; try done.
  - rewrite invert_invert, (Hval false). apply select_column.
  - do 2 f_equal. rewrite (Hval false). unfold invert, smap.
    rewrite map_map. apply map_ext. by intros [i r].
Qed.

Lemma filter_by_price_per_sqm_rows st st' :
  filter_by_price_per_sqm st = (Ok tt, st') ->
  columns (data st') = columns (data st) /\
  has_column (data st) "price" = true /\
  has_column (data st) "living_area" = true /\
  Forall (fun '(_, r) =>
            exists q, truediv_cell (cell r "price") (cell r "living_area") = Ok q)
    (rows (data st)) /\
  rows (data st') = List.filter (fun '(_, r) => ppsqm_valid r) (rows (data st)) /\
  log st' = log st.
Proof.
  rewrite filter_by_price_per_sqm_run.
  destruct (getitem _ "price") as [price|e] eqn:Hprice; [|discriminate].
  apply getitem_inv in Hprice as [Hcp ->].
  destruct (getitem _ "living_area") as [area|e] eqn:Harea; [|discriminate].
  apply getitem_inv in Harea as [Hca ->].
  destruct (truediv _ _) as [ratio|e] eqn:Hdiv; [|discriminate].
  intros [= <-]. simpl.
  destruct (truediv_columns _ _ _ _ Hdiv) as [Hall Hval].
  repeat split; try done.
  rewrite (Hval Float64.nan). unfold smap. rewrite map_map.
  rewrite <- select_column. do 2 f_equal.
  apply map_ext. intros [i r]. unfold ppsqm_valid.
  by destruct (truediv_cell _ _).
Qed.

(** *** Price cleaning *)

Lemma has_column_spec df c : has_column df c = true <-> c ∈ columns df.
Proof. unfold has_column. by rewrite bool_decide_eq_true. Qed.

Lemma has_column_false df c : has_column df c = false <-> c ∉ columns df.
Proof. unfold has_column. by rewrite bool_decide_eq_false. Qed.

Lemma setitem_columns df c s :
  columns (setitem df c s) =
  if has_column df c then columns df else columns df ++ [c].
Proof. reflexivity. Qed.

Lemma setitem_has_column df c s c' :
  has_column (setitem df c s) c' = has_column df c' || String.eqb c' c.
Proof.
  apply eq_true_iff_eq. rewrite orb_true_iff, !has_column_spec, setitem_columns.
  rewrite String.eqb_eq.
  destruct (has_column df c) eqn:Hc.
  - apply has_column_spec in Hc. split; [tauto|]. by intros [?| ->].
  - rewrite elem_of_app, list_elem_of_singleton. tauto.
Qed.

Lemma setitem_rows df c (f : value -> value) c0 :
  rows (setitem df c (smap f (map (fun '(i, r) => (i, cell r c0)) (rows df)))) =
  map (fun '(i, r) => (i, <[c := f (cell r c0)]> r)) (rows df).
Proof.
  unfold setitem; simpl. induction (rows df) as [|[i r] l IH]; [reflexivity|].
  simpl. by rewrite IH.
Qed.

Lemma str_accessor_inv s s' : str_accessor s = Ok s' -> s' = s.
Proof. unfold str_accessor. destruct (_ || _); [by intros [= <-]|discriminate]. Qed.

Lemma validate_clean_price_run st :
  validate_clean_price st =
  if has_column (data st) "raw_price" then
    match str_accessor (map (fun '(i, r) => (i, cell r "raw_price")) (rows (data st))) with
    | Raise e => (Raise e, st)
    | Ok _ =>
        (Ok tt,
         {| data := clean_price_frame (data st);
            log := log st ++
              log_lines
                (map (fun '(i, r) =>
                        (i, value_isnull (extract_price (cell r "raw_price"))))
                   (rows (data st)))
                "Invalid or null prices found." |})
    end
  else (Ok tt, with_log st ["raw_price column missing."]).
Proof.
  unfold validate_clean_price, mbind, M_bind, get_data at 1.
  destruct (has_column (data st) "raw_price") eqn:Hraw; [|reflexivity].
  unfold lift at 1. rewrite (getitem_ok _ _ Hraw).
  unfold lift at 1.
  destruct (str_accessor _) as [raw|e] eqn:Hstr; [|reflexivity].
  apply str_accessor_inv in Hstr as ->.
  unfold set_data at 1, get_data at 1, lift at 1. simpl data.
  set (df1 := setitem (data st) "price" _).
  assert (Hp : has_column df1 "price" = true).
  { unfold df1. rewrite setitem_has_column. apply orb_true_r. }
  assert (Hr : has_column df1 "raw_price" = true).
  { unfold df1. rewrite setitem_has_column, Hraw. reflexivity. }
  rewrite (getitem_ok _ _ Hp), log_errors_run.
  unfold get_data, lift, drop. simpl data. rewrite Hr. unfold set_data. simpl.
  pose proof (setitem_rows (data st) "price" extract_price "raw_price") as Hrows.
  simpl in Hrows. rewrite !Hrows, !map_map.
  f_equal. f_equal.
  - unfold clean_price_frame. f_equal. apply map_ext. by intros [i r].
  - do 2 f_equal. unfold smap. rewrite map_map. apply map_ext. intros [i r].
    unfold cell at 1. by rewrite lookup_insert_eq.
Qed.

(** *** The pipeline, stage by stage *)

Lemma validate_id_column_data st st' r :
  validate_id_column st = (r, st') -> data st' = data st.
Proof.
  rewrite validate_id_column_run. destruct (getitem _ _); by intros [= _ <-].
Qed.

Lemma validate_property_type_data st st' r :
  validate_property_type st = (r, st') -> data st' = data st.
Proof.
  rewrite validate_property_type_run. destruct (getitem _ _); by intros [= _ <-].
Qed.

Lemma validate_scraping_date_data st st' r :
  validate_scraping_date st = (r, st') -> data st' = data st.
Proof.
  rewrite validate_scraping_date_run. destruct (getitem _ _); by intros [= _ <-].
Qed.

Lemma validate_clean_price_data st st' :
  validate_clean_price st = (Ok tt, st') -> data st' = price_cleaned (data st).
Proof.
  rewrite validate_clean_price_run. unfold price_cleaned.
  destruct (has_column _ _); [|by intros [= <-]].
  destruct (str_accessor _); [by intros [= <-]|discriminate].
Qed.

Lemma validate_and_clean_inv st st' :
  validate_and_clean st = (Ok tt, st') ->
  exists st1 st2 st3 st4 st5,
    validate_id_column st = (Ok tt, st1) /\
    validate_clean_price st1 = (Ok tt, st2) /\
    validate_living_area st2 = (Ok tt, st3) /\
    filter_by_price_per_sqm st3 = (Ok tt, st4) /\
    validate_property_type st4 = (Ok tt, st5) /\
    validate_scraping_date st5 = (Ok tt, st').
Proof.
  unfold validate_and_clean. intros H.
  apply bind_ok_inv in H as ([] & st1 & H1 & H).
  apply bind_ok_inv in H as ([] & st2 & H2 & H).
  apply bind_ok_inv in H as ([] & st3 & H3 & H).
  apply bind_ok_inv in H as ([] & st4 & H4 & H).
  apply bind_ok_inv in H as ([] & st5 & H5 & H).
  by exists st1, st2, st3, st4, st5.
Qed.

(** The rows that survive: those of the price-cleaned frame that pass the
    living-area test and then the price-per-area test, in their order. *)
Lemma validate_and_clean_rows st st' :
  validate_and_clean st = (Ok tt, st') ->
  columns (data st') = columns (price_cleaned (data st)) /\
  rows (data st') =
    List.filter (fun '(_, r) => ppsqm_valid r)
      (List.filter (fun '(_, r) => area_valid r)
         (rows (price_cleaned (data st)))).
Proof.
  intros H. apply validate_and_clean_inv in H
    as (st1 & st2 & st3 & st4 & st5 & H1 & H2 & H3 & H4 & H5 & H6).
  apply validate_id_column_data in H1.
  apply validate_clean_price_data in H2.
  apply validate_living_area_rows in H3 as (Hc3 & _ & _ & Hr3 & _).
  apply filter_by_price_per_sqm_rows in H4 as (Hc4 & _ & _ & _ & Hr4 & _).
  apply validate_property_type_data in H5.
  apply validate_scraping_date_data in H6.
  rewrite H6, H5, Hc4, Hr4, Hc3, Hr3, H2, H1. done.
Qed.

Lemma filter_sublist {A} (f : A -> bool) (l : list A) :
  List.filter f l `sublist_of` l.
Proof. rewrite <- select_map. apply select_sublist. Qed.

Lemma between_float_nan lo hi : between_float lo hi Float64.nan = false.
Proof.
  unfold between_float, Float64.leb, SFleb, SFcompare, Float64.nan.
  by destruct (Float64.of_Z lo).
Qed.

Lemma ppsqm_valid_inv r :
  ppsqm_valid r = true ->
  value_isnull (cell r "price") = false /\
  value_isnull (cell r "living_area") = false /\
  is_str (cell r "price") = false /\ is_str (cell r "living_area") = false /\
  between_float 500 15000
    (Float64.div (to_float (cell r "price")) (to_float (cell r "living_area"))) = true.
Proof.
  unfold ppsqm_valid, truediv_cell.
  destruct (value_isnull (cell r "price")); simpl.
  { by rewrite between_float_nan. }
  destruct (value_isnull (cell r "living_area")); simpl.
  { by rewrite between_float_nan. }
  destruct (is_str (cell r "price")); simpl; [discriminate|].
  destruct (is_str (cell r "living_area")); simpl; [discriminate|].
  done.
Qed.

Lemma area_valid_inv r :
  area_valid r = true -> between_cell 10 500 (cell r "living_area") = Ok true.
Proof.
  unfold area_valid. destruct (between_cell _ _ _) as [[]|]; by intros.
Qed.

Lemma survivors st st' :
  validate_and_clean st = (Ok tt, st') ->
  Forall (fun '(_, r) => ppsqm_valid r = true /\ area_valid r = true)
    (rows (data st')).
Proof.
  intros H. apply validate_and_clean_rows in H as [_ ->].
  apply List.Forall_forall. intros [i r] Hin.
  apply filter_In in Hin as [Hin Hp]. apply filter_In in Hin as [_ Ha]. done.
Qed.

(** ** Properties of the pipeline *)

(** C1: after the whole pipeline has run, every row of the final record set
    has a price per living area between 500 and 15000 and a living area
    between 10 and 500, bounds included.  The ratio is the float64 quotient
    the filter computes, compared as the filter compares it. *)
Theorem surviving_rows_in_range st st' :
  validate_and_clean st = (Ok tt, st') ->
  Forall (fun '(_, r) =>
            let ratio := Float64.div (to_float (cell r "price"))
                                     (to_float (cell r "living_area")) in
            Float64.leb (Float64.of_Z 500) ratio = true /\
            Float64.leb ratio (Float64.of_Z 15000) = true /\
            between_cell 10 500 (cell r "living_area") = Ok true)
    (rows (data st')).
Proof.
  intros H. apply survivors in H.
  eapply List.Forall_impl; [|exact H]. intros [i r] [Hp Ha].
  apply ppsqm_valid_inv in Hp as (_ & _ & _ & _ & Hb).
  apply andb_true_iff in Hb as [Hlo Hhi].
  split; [exact Hlo|]. split; [exact Hhi|]. by apply area_valid_inv.
Qed.

Lemma surviving_rows_in_range_witness :
  let st' := snd (validate_and_clean (Sample.start Sample.priced)) in
  validate_and_clean (Sample.start Sample.priced) = (Ok tt, st') /\
  labels (data st') = [0%nat] /\
  Forall (fun '(_, r) =>
            let ratio := Float64.div (to_float (cell r "price"))
                                     (to_float (cell r "living_area")) in
            Float64.leb (Float64.of_Z 500) ratio = true /\
            Float64.leb ratio (Float64.of_Z 15000) = true /\
            between_cell 10 500 (cell r "living_area") = Ok true)
    (rows (data st')).
Proof.
  intros st'.
  assert (Hrun : validate_and_clean (Sample.start Sample.priced) = (Ok tt, st'))
    by (vm_compute; reflexivity).
  split; [exact Hrun|]. split; [vm_compute; reflexivity|].
  exact (surviving_rows_in_range _ _ Hrun).
Defined.

(** C9: no row that survives the pipeline has a null price or a null living
    area.  The range tests treat a null as out of range: a null living area
    fails [between], and a null on either side makes the ratio NaN, which
    fails the price-per-area test. *)
Theorem surviving_rows_not_null st st' :
  validate_and_clean st = (Ok tt, st') ->
  Forall (fun '(_, r) =>
            value_isnull (cell r "price") = false /\
            value_isnull (cell r "living_area") = false)
    (rows (data st')) /\
  (forall r, value_isnull (cell r "living_area") = true -> area_valid r = false) /\
  (forall r, value_isnull (cell r "price") = true \/
             value_isnull (cell r "living_area") = true ->
             truediv_cell (cell r "price") (cell r "living_area") = Ok Float64.nan /\
             ppsqm_valid r = false).
Proof.
  intros H. split; [|split].
  - apply survivors in H. eapply List.Forall_impl; [|exact H].
    intros [i r] [Hp _]. apply ppsqm_valid_inv in Hp. tauto.
  - intros r. unfold area_valid, value_isnull.
    destruct (cell r "living_area") as [|z|f|s]; try discriminate; [done|].
    destruct f; try discriminate. intros _. simpl.
    apply between_float_nan.
  - intros r Hnull. unfold ppsqm_valid, truediv_cell.
    assert (value_isnull (cell r "price") || value_isnull (cell r "living_area") = true)
      as -> by (apply orb_true_iff; exact Hnull).
    split; [reflexivity|apply between_float_nan].
Qed.

Lemma surviving_rows_not_null_witness :
  let st' := snd (validate_and_clean (Sample.start Sample.raw)) in
  validate_and_clean (Sample.start Sample.raw) = (Ok tt, st') /\
  labels (data st') = [2%nat] /\
  Forall (fun '(_, r) =>
            value_isnull (cell r "price") = false /\
            value_isnull (cell r "living_area") = false)
    (rows (data st')).
Proof.
  intros st'.
  assert (Hrun : validate_and_clean (Sample.start Sample.raw) = (Ok tt, st'))
    by (vm_compute; reflexivity).
  split; [exact Hrun|]. split; [vm_compute; reflexivity|].
  exact (proj1 (surviving_rows_not_null _ _ Hrun)).
Defined.

Lemma sublist_map {A B} (f : A -> B) (l1 l2 : list A) :
  l1 `sublist_of` l2 -> map f l1 `sublist_of` map f l2.
Proof.
  induction 1; simpl; [constructor|by apply sublist_skip|by apply sublist_cons].
Qed.

Lemma labels_clean_price_frame df : labels (clean_price_frame df) = labels df.
Proof.
  unfold labels, clean_price_frame; simpl. rewrite map_map.
  apply map_ext. by intros [i r].
Qed.

Lemma labels_price_cleaned df : labels (price_cleaned df) = labels df.
Proof.
  unfold price_cleaned. destruct (has_column _ _); [|reflexivity].
  apply labels_clean_price_frame.
Qed.

(** C7: each stage leaves the rows as they are, rewrites every row in place
    (price cleaning), or keeps a subsequence of them; none adds or reorders
    rows.  So the rows of the final record set are a subsequence of the
    loaded rows after their price has been cleaned, and their labels are a
    subsequence of the loaded labels. *)
Theorem row_order_preserved :
  Forall (fun stage : M unit => forall st st',
            stage st = (Ok tt, st') ->
            (rows (data st') `sublist_of` rows (data st) \/
             rows (data st') = map (fun '(i, r) => (i, clean_row r)) (rows (data st))) /\
            labels (data st') `sublist_of` labels (data st))
    stages /\
  forall st st',
    validate_and_clean st = (Ok tt, st') ->
    rows (data st') `sublist_of` rows (price_cleaned (data st)) /\
    labels (price_cleaned (data st)) = labels (data st) /\
    labels (data st') `sublist_of` labels (data st).
Proof.
  split.
  - unfold stages. repeat apply List.Forall_cons; try apply List.Forall_nil;
      intros st st' H.
    + apply validate_id_column_data in H as ->. split; [by left|done].
    + apply validate_clean_price_data in H as ->.
      split; [|by rewrite labels_price_cleaned].
      unfold price_cleaned. destruct (has_column _ _); [by right|by left].
    + apply validate_living_area_rows in H as (_ & _ & _ & Hr & _).
      unfold labels. rewrite Hr.
      split; [left|apply sublist_map]; apply filter_sublist.
    + apply filter_by_price_per_sqm_rows in H as (_ & _ & _ & _ & Hr & _).
      unfold labels. rewrite Hr.
      split; [left|apply sublist_map]; apply filter_sublist.
    + apply validate_property_type_data in H as ->. split; [by left|done].
    + apply validate_scraping_date_data in H as ->. split; [by left|done].
  - intros st st' H. apply validate_and_clean_rows in H as [_ Hr].
    assert (Hsub : rows (data st') `sublist_of` rows (price_cleaned (data st))).
    { rewrite Hr. etrans; apply filter_sublist. }
    split; [exact Hsub|]. split; [apply labels_price_cleaned|].
    rewrite <- (labels_price_cleaned (data st)). by apply sublist_map.
Qed.

Lemma row_order_preserved_witness :
  let st' := snd (validate_and_clean (Sample.start Sample.raw)) in
  validate_and_clean (Sample.start Sample.raw) = (Ok tt, st') /\
  labels (Sample.raw) = [0; 1; 2]%nat /\ labels (data st') = [2%nat] /\
  rows (data st') `sublist_of` rows (price_cleaned Sample.raw).
Proof.
  intros st'.
  assert (Hrun : validate_and_clean (Sample.start Sample.raw) = (Ok tt, st'))
    by (vm_compute; reflexivity).
  split; [exact Hrun|]. split; [reflexivity|]. split; [vm_compute; reflexivity|].
  exact (proj1 (proj2 row_order_preserved _ _ Hrun)).
Defined.

(** *** The order in which the stages run *)

Lemma run_stages_cons stage l st :
  run_stages (stage :: l) st = (stage;; run_stages l) st.
Proof. reflexivity. Qed.

Lemma bind_ret_unit (m : M unit) st : (m;; mret tt) st = m st.
Proof.
  unfold mbind, M_bind, mret, M_ret. by destruct (m st) as [[[]|e] st1].
Qed.

Lemma validate_and_clean_stages st : validate_and_clean st = run_stages stages st.
Proof.
  unfold validate_and_clean, run_stages, stages; simpl.
  unfold mbind at 1 6, M_bind.
  destruct (validate_id_column st) as [[[]|e] st1]; [|reflexivity].
  unfold mbind at 1 5, M_bind.
  destruct (validate_clean_price st1) as [[[]|e] st2]; [|reflexivity].
  unfold mbind at 1 4, M_bind.
  destruct (validate_living_area st2) as [[[]|e] st3]; [|reflexivity].
  unfold mbind at 1 3, M_bind.
  destruct (filter_by_price_per_sqm st3) as [[[]|e] st4]; [|reflexivity].
  unfold mbind at 1 2, M_bind.
  destruct (validate_property_type st4) as [[[]|e] st5]; [|reflexivity].
  by rewrite bind_ret_unit.
Qed.

(** *** The price pattern *)

Lemma append_nil_l (s : string) : EmptyString +:+ s = s.
Proof. reflexivity. Qed.

Lemma append_cons c (s t : string) : String c s +:+ t = String c (s +:+ t).
Proof. reflexivity. Qed.

Lemma append_nil_r (s : string) : s +:+ EmptyString = s.
Proof. induction s as [|c s IH]; [done|]. by rewrite append_cons, IH. Qed.

Lemma append_assoc (s t u : string) : (s +:+ t) +:+ u = s +:+ (t +:+ u).
Proof. induction s as [|c s IH]; [done|]. by rewrite !append_cons, IH. Qed.




(** *** Rounding to binary64 *)



























(** *** Price cleaning, row by row *)

Lemma clean_price_frame_has_raw_price df :
  has_column (clean_price_frame df) "raw_price" = false.
Proof.
  apply has_column_false. unfold clean_price_frame; simpl.
  rewrite list_elem_of_In, filter_In. intros [_ H].
  by rewrite String.eqb_refl in H.
Qed.

Lemma clean_price_frame_has_price df :
  has_column (clean_price_frame df) "price" = true.
Proof.
  apply has_column_spec. unfold clean_price_frame; simpl.
  rewrite list_elem_of_In, filter_In. split; [|reflexivity].
  apply list_elem_of_In. destruct (has_column df "price") eqn:Hp.
  - by apply has_column_spec.
  - apply elem_of_app. right. by apply list_elem_of_singleton.
Qed.

Lemma clean_price_frame_has_column df c :
  c <> "price" -> c <> "raw_price" ->
  has_column (clean_price_frame df) c = has_column df c.
Proof.
  intros Hp Hr. apply eq_true_iff_eq. rewrite !has_column_spec.
  unfold clean_price_frame; simpl. rewrite list_elem_of_In, filter_In.
  rewrite <- list_elem_of_In, negb_true_iff, String.eqb_neq.
  destruct (has_column df "price").
  - tauto.
  - rewrite elem_of_app, list_elem_of_singleton. tauto.
Qed.



(** *** The first match is the only one *)

Lemma span_digits_unique a b :
  all_digits a = true -> starts_with_digit b = false ->
  span_digits (a ++ b) = (a, b).
Proof.
  unfold all_digits. intros Ha Hb.
  induction a as [|c a IH]; cbn [app span_digits].
  - destruct b as [|c b]; [done|]. cbn [starts_with_digit] in Hb.
    cbn [span_digits]. by rewrite Hb.
  - cbn [forallb] in Ha. apply andb_true_iff in Ha as [Hc Ha].
    by rewrite Hc, (IH Ha).
Qed.

Lemma first_price_match_search l m :
  first_price_match l m -> re_search_price l = Some m.
Proof.
  destruct m as [[ip has_dot] fp].
  intros (pre & post & -> & Hpre & Hne & Hip & Hfp & Hpost & Hnodot).
  unfold match_text. rewrite <- !app_assoc.
  set (tail := (if has_dot then [dot] else []) ++ fp ++ post).
  assert (Htail : starts_with_digit tail = false).
  { unfold tail. destruct has_dot; [reflexivity|].
    by destruct (Hnodot eq_refl) as [-> _]. }
  induction pre as [|c pre IH].
  - destruct ip as [|d ip]; [done|].
    assert (Hd : is_digit d = true).
    { unfold all_digits in Hip. cbn [forallb] in Hip.
      by apply andb_true_iff in Hip as [? _]. }
    change ([] ++ (d :: ip) ++ tail) with (d :: ip ++ tail).
    cbn [re_search_price]. rewrite Hd.
    change (d :: ip ++ tail) with ((d :: ip) ++ tail).
    rewrite (span_digits_unique _ _ Hip Htail).
    unfold tail. destruct has_dot.
    + change ([dot] ++ fp ++ post) with (dot :: fp ++ post).
      cbv beta iota.
      by rewrite N.eqb_refl, (span_digits_unique _ _ Hfp Hpost).
    + destruct (Hnodot eq_refl) as [-> Hnd].
      change ([] ++ [] ++ post) with post.
      destruct post as [|c' post']; [done|].
      cbn [starts_with_dot] in Hnd. cbv beta iota. by rewrite Hnd.
  - unfold has_digit in Hpre. cbn [existsb] in Hpre.
    apply orb_false_iff in Hpre as [Hc Hpre].
    change ((c :: pre) ++ ip ++ tail) with (c :: pre ++ ip ++ tail).
    cbn [re_search_price]. rewrite Hc. by apply IH.
Qed.

(** A string has at most one first match of the price pattern. *)
Lemma first_price_match_unique l m m' :
  first_price_match l m -> first_price_match l m' -> m = m'.
Proof.
  intros H H'. apply first_price_match_search in H, H'. congruence.
Qed.

(** Digits of any script count: three Arabic-Indic digits before a larger
    number in Latin digits are the first match, and read as 3; a number in
    Arabic-Indic digits reads as its value. *)
Lemma extract_price_unicode_digits :
  extract_price (VStr "٣ rooms, CHF 500000") = VFloat (Float64.of_Z 3) /\
  extract_price (VStr "١٢٣٤.٥") = VFloat (S754_finite false 5429388417957888 (-42)).
Proof. split; vm_compute; reflexivity. Qed.


(** C5, as stated: a [raw_price] column that holds a number and no string.
    The column exists, yet price cleaning sets no price and drops nothing:
    it stops with [AttributeError], the record set as it was, its
    [raw_price] column still there and no [price] column made. *)
Lemma price_cleaning_counterexample :
  let st := Sample.start Sample.numeric_raw in
  has_column (data st) "raw_price" = true /\
  map (fun '(_, r) => cell r "raw_price") (rows (data st)) =
    [VInt 200000; VNull] /\
  validate_clean_price st = (Raise AttributeError, st) /\
  has_column (data (snd (validate_clean_price st))) "raw_price" = true /\
  has_column (data (snd (validate_clean_price st))) "price" = false.
Proof.
  intros st. split; [reflexivity|]. split; [vm_compute; reflexivity|].
  assert (Hrun : validate_clean_price st = (Raise AttributeError, st)).
  { rewrite validate_clean_price_run. reflexivity. }
  rewrite Hrun. split; [reflexivity|]. split; reflexivity.
Qed.



(** C2, as stated: on a single listing of 5 square metres priced 10, the
    source logs the living area, since its living-area validation sees the
    row before the price-per-area filter does; in the order the
    specification gives, the filter drops the row first and nothing is
    logged about it.  So the pipeline is not the specification's sequence. *)
Lemma spec_order_counterexample :
  log (snd (validate_and_clean (Sample.start Sample.tiny))) =
    ["raw_price column missing."; "Invalid living_area values. Indices: 0"] /\
  log (snd (run_stages spec_stages (Sample.start Sample.tiny))) =
    ["raw_price column missing."] /\
  validate_and_clean (Sample.start Sample.tiny) <>
    run_stages spec_stages (Sample.start Sample.tiny).
Proof.
  split; [vm_compute; reflexivity|]. split; [vm_compute; reflexivity|].
  intros H. apply (f_equal (fun x => length (log (snd x)))) in H.
  vm_compute in H. discriminate H.
Qed.

(** C2, amended: the pipeline is the sequence id check, price cleaning,
    living-area validation, price-per-area filter, property-type check,
    scraping-date check.  The living-area validation runs on the record set
    price cleaning leaves, and logs against all of its rows; the
    price-per-area filter runs on what the living-area validation leaves. *)
Theorem stages_run_in_source_order st :
  validate_and_clean st =
    run_stages [ validate_id_column; validate_clean_price; validate_living_area;
                 filter_by_price_per_sqm; validate_property_type;
                 validate_scraping_date ] st /\
  forall st',
    validate_and_clean st = (Ok tt, st') ->
    exists st2 st3,
      run_stages [validate_id_column; validate_clean_price] st = (Ok tt, st2) /\
      data st2 = price_cleaned (data st) /\
      validate_living_area st2 = (Ok tt, st3) /\
      log st3 = log st2 ++
        log_lines (map (fun '(i, r) => (i, negb (area_valid r))) (rows (data st2)))
          "Invalid living_area values." /\
      rows (data st3) = List.filter (fun '(_, r) => area_valid r) (rows (data st2)) /\
      run_stages [filter_by_price_per_sqm; validate_property_type;
                  validate_scraping_date] st3 = (Ok tt, st').
Proof.
  split; [apply validate_and_clean_stages|].
  intros st' H. apply validate_and_clean_inv in H
    as (st1 & st2 & st3 & st4 & st5 & H1 & H2 & H3 & H4 & H5 & H6).
  exists st2, st3.
  pose proof (validate_living_area_rows _ _ H3) as (_ & _ & _ & Hr3 & Hl3).
  split; [|split; [|split; [exact H3|split; [exact Hl3|split; [exact Hr3|]]]]].
  - rewrite run_stages_cons, (bind_ok _ _ _ _ _ H1).
    rewrite run_stages_cons, (bind_ok _ _ _ _ _ H2). reflexivity.
  - apply validate_clean_price_data in H2. apply validate_id_column_data in H1.
    by rewrite H2, H1.
  - rewrite run_stages_cons, (bind_ok _ _ _ _ _ H4).
    rewrite run_stages_cons, (bind_ok _ _ _ _ _ H5).
    rewrite run_stages_cons, (bind_ok _ _ _ _ _ H6). reflexivity.
Qed.

Lemma stages_run_in_source_order_witness :
  let st := Sample.start Sample.tiny in
  let st' := snd (validate_and_clean st) in
  validate_and_clean st = (Ok tt, st') /\
  exists st2 st3,
    validate_living_area st2 = (Ok tt, st3) /\
    log st3 = log st2 ++
      log_lines (map (fun '(i, r) => (i, negb (area_valid r))) (rows (data st2)))
        "Invalid living_area values." /\
    run_stages [filter_by_price_per_sqm; validate_property_type;
                validate_scraping_date] st3 = (Ok tt, st').
Proof.
  intros st st'.
  assert (Hrun : validate_and_clean st = (Ok tt, st')) by (vm_compute; reflexivity).
  split; [exact Hrun|].
  destruct (proj2 (stages_run_in_source_order st) st' Hrun)
    as (st2 & st3 & _ & _ & H3 & Hl & _ & Hrest).
  by exists st2, st3.
Defined.

(** *** What a log line names *)

(** C4, as stated: the first of two listings is dropped without a log line
    by the price-per-area filter; the second has an unknown property type.
    When the property-type check runs, the record set holds that one row, at
    position 0, and the line logged names it 1, its index label. *)
Lemma log_identifiers_counterexample :
  let st4 := snd (run_stages [ validate_id_column; validate_clean_price;
                               validate_living_area; filter_by_price_per_sqm ]
                    (Sample.start Sample.shifted)) in
  let condition :=
    invert (smap (isin_cell VALID_PROPERTY_TYPES)
              (map (fun '(i, r) => (i, cell r "property_type")) (rows (data st4)))) in
  let message := "Invalid property types. Only 'apartment' or 'house' are allowed." in
  labels (data st4) = [1%nat] /\
  condition = [(1%nat, true)] /\
  violating_positions condition = [0%nat] /\
  validate_property_type st4 = (Ok tt, with_log st4 [message +:+ " Indices: 1"]) /\
  spec_log_lines condition message = [message +:+ " Indices: 0"] /\
  log_lines condition message <> spec_log_lines condition message.
Proof.
  repeat split; try (vm_compute; reflexivity).
  vm_compute. discriminate.
Qed.

(** C4, amended: a call of [log_errors] on a condition over the current
    record set changes nothing but the log; it writes nothing when no row
    violates the rule, and otherwise one line, the message followed by
    identifiers, which names every violating row and only rows of the
    current record set.  An identifier is the index label of the row, and
    boolean indexing keeps each remaining row under the label it had. *)
Theorem log_errors_names_labels condition message st :
  index condition = labels (data st) ->
  (exists st',
     log_errors condition message st = (Ok tt, st') /\
     data st' = data st /\
     (any condition = false -> log st' = log st) /\
     (any condition = true ->
      exists ids,
        log st' = log st ++
          [message +:+ " Indices: " +:+ String.concat ", " (map pretty ids)] /\
        (forall i, (i, true) ∈ condition -> i ∈ ids) /\
        (forall i, i ∈ ids -> i ∈ labels (data st)))) /\
  (forall mask,
     rows (boolean_index (data st) mask) `sublist_of` rows (data st) /\
     labels (boolean_index (data st) mask) `sublist_of` labels (data st)).
Proof.
  intros Hidx. split.
  - eexists. rewrite log_errors_run. split; [reflexivity|].
    split; [reflexivity|]. unfold log_lines. simpl log. split.
    + intros ->. apply app_nil_r.
    + intros ->. exists (index condition). split; [reflexivity|]. split.
      * intros i Hi. apply list_elem_of_In, in_map_iff. exists (i, true).
        split; [reflexivity|by apply list_elem_of_In].
      * intros i Hi. by rewrite <- Hidx.
  - intros mask. unfold boolean_index, labels; simpl.
    split; [|apply sublist_map]; apply select_sublist.
Qed.

Lemma log_errors_names_labels_witness :
  let st4 := snd (run_stages [ validate_id_column; validate_clean_price;
                               validate_living_area; filter_by_price_per_sqm ]
                    (Sample.start Sample.shifted)) in
  let condition := [(1%nat, true)] in
  index condition = labels (data st4) /\
  exists st',
    log_errors condition "Invalid property types." st4 = (Ok tt, st') /\
    data st' = data st4.
Proof.
  intros st4 condition.
  assert (Hidx : index condition = labels (data st4)) by (vm_compute; reflexivity).
  split; [exact Hidx|].
  destruct (proj1 (log_errors_names_labels condition "Invalid property types." st4 Hidx))
    as (st' & Hrun & Hdata & _).
  exists st'. by split.
Defined.

(** *** The stages that only log *)

(** C6: the id check, the property-type check and the scraping-date check
    leave the record set as it was, whatever they log; each of them returns
    normally when the column it reads is there. *)
Theorem log_only_stages_keep_data st :
  data (snd (validate_id_column st)) = data st /\
  data (snd (validate_property_type st)) = data st /\
  data (snd (validate_scraping_date st)) = data st /\
  (has_column (data st) "id" = true -> fst (validate_id_column st) = Ok tt) /\
  (has_column (data st) "property_type" = true ->
   fst (validate_property_type st) = Ok tt) /\
  (has_column (data st) "scraping_date" = true ->
   fst (validate_scraping_date st) = Ok tt).
Proof.
  repeat split.
  - by eapply validate_id_column_data, surjective_pairing.
  - by eapply validate_property_type_data, surjective_pairing.
  - by eapply validate_scraping_date_data, surjective_pairing.
  - intros H. by rewrite validate_id_column_run, (getitem_ok _ _ H).
  - intros H. by rewrite validate_property_type_run, (getitem_ok _ _ H).
  - intros H. by rewrite validate_scraping_date_run, (getitem_ok _ _ H).
Qed.

Lemma log_only_stages_keep_data_witness :
  let st := Sample.start Sample.priced in
  has_column (data st) "id" = true /\
  has_column (data st) "property_type" = true /\
  has_column (data st) "scraping_date" = true /\
  log (snd (validate_property_type st)) =
    ["Invalid property types. Only 'apartment' or 'house' are allowed. Indices: 0, 1"] /\
  data (snd (validate_id_column st)) = data st /\
  data (snd (validate_property_type st)) = data st /\
  data (snd (validate_scraping_date st)) = data st /\
  fst (validate_id_column st) = Ok tt /\
  fst (validate_property_type st) = Ok tt /\
  fst (validate_scraping_date st) = Ok tt.
Proof.
  intros st.
  destruct (log_only_stages_keep_data st) as (H1 & H2 & H3 & H4 & H5 & H6).
  split; [reflexivity|]. split; [reflexivity|]. split; [reflexivity|].
  split; [vm_compute; reflexivity|].
  split; [exact H1|]. split; [exact H2|]. split; [exact H3|].
  split; [apply H4; reflexivity|]. split; [apply H5; reflexivity|].
  apply H6; reflexivity.
Defined.

(** *** Missing columns *)

Lemma has_column_columns df df' c :
  columns df' = columns df -> has_column df' c = has_column df c.
Proof. unfold has_column. by intros ->. Qed.

Lemma missing_columns df df' c :
  columns df' = columns df -> missing c df -> missing c df'.
Proof.
  intros H [H1 H2]. unfold missing. by rewrite !(has_column_columns _ _ _ H).
Qed.

Lemma missing_price_cleaned df c :
  c <> "raw_price" -> missing c df -> missing c (price_cleaned df).
Proof.
  intros Hr [H1 H2]. unfold price_cleaned.
  destruct (has_column df "raw_price") eqn:Hraw; [|done].
  destruct (decide (c = "price")) as [->|Hp].
  - by specialize (H2 eq_refl).
  - split; [by rewrite clean_price_frame_has_column|].
    intros _. apply clean_price_frame_has_raw_price.
Qed.

Lemma stages_preserve_missing c :
  c <> "raw_price" ->
  Forall (fun stage : M unit => forall st st',
            stage st = (Ok tt, st') -> missing c (data st) -> missing c (data st'))
    stages.
Proof.
  intros Hr. unfold stages.
  repeat apply List.Forall_cons; try apply List.Forall_nil; intros st st' H Hm.
  - by apply validate_id_column_data in H as ->.
  - apply validate_clean_price_data in H as ->. by apply missing_price_cleaned.
  - apply validate_living_area_rows in H as (Hc & _).
    by apply (missing_columns _ _ _ Hc).
  - apply filter_by_price_per_sqm_rows in H as (Hc & _).
    by apply (missing_columns _ _ _ Hc).
  - by apply validate_property_type_data in H as ->.
  - by apply validate_scraping_date_data in H as ->.
Qed.

Lemma run_stages_raises c (l : list (M unit)) st :
  Forall (fun stage : M unit => forall st st',
            stage st = (Ok tt, st') -> missing c (data st) -> missing c (data st')) l ->
  Exists (fun stage : M unit => forall st,
            missing c (data st) -> exists e st', stage st = (Raise e, st')) l ->
  missing c (data st) ->
  exists e st', run_stages l st = (Raise e, st').
Proof.
  intros Hall Hex. revert st.
  induction l as [|stage l IH]; intros st Hm; [by inversion Hex|].
  apply List.Forall_cons_iff in Hall as [Hstage Hall].
  rewrite run_stages_cons.
  destruct (stage st) as [[[]|e] st1] eqn:Hrun.
  - rewrite (bind_ok _ _ _ _ _ Hrun).
    apply List.Exists_cons in Hex as [Hhere|Hlater].
    + destruct (Hhere st Hm) as (e & st' & He). congruence.
    + apply (IH Hall Hlater). by apply (Hstage st).
  - rewrite (bind_raise _ _ _ _ _ Hrun). eauto.
Qed.

Lemma reader_raises c :
  c ∈ ["id"; "living_area"; "property_type"; "scraping_date"; "price"] ->
  Exists (fun stage : M unit => forall st,
            missing c (data st) -> exists e st', stage st = (Raise e, st')) stages.
Proof.
  intros Hc. unfold stages.
  repeat (apply elem_of_cons in Hc as [->|Hc]); [| | | | |by apply elem_of_nil in Hc].
  - apply List.Exists_cons_hd. intros st [Hm _].
    rewrite validate_id_column_run, (getitem_missing _ _ Hm). eauto.
  - do 2 apply List.Exists_cons_tl. apply List.Exists_cons_hd. intros st [Hm _].
    rewrite validate_living_area_run, (getitem_missing _ _ Hm). eauto.
  - do 4 apply List.Exists_cons_tl. apply List.Exists_cons_hd. intros st [Hm _].
    rewrite validate_property_type_run, (getitem_missing _ _ Hm). eauto.
  - do 5 apply List.Exists_cons_tl. apply List.Exists_cons_hd. intros st [Hm _].
    rewrite validate_scraping_date_run, (getitem_missing _ _ Hm). eauto.
  - do 3 apply List.Exists_cons_tl. apply List.Exists_cons_hd. intros st [Hm _].
    rewrite filter_by_price_per_sqm_run, (getitem_missing _ _ Hm). eauto.
Qed.

Lemma validate_and_clean_raises c st :
  c ∈ ["id"; "living_area"; "property_type"; "scraping_date"; "price"] ->
  missing c (data st) ->
  exists e st', validate_and_clean st = (Raise e, st').
Proof.
  intros Hc Hm. rewrite validate_and_clean_stages.
  apply (run_stages_raises c); [|by apply reader_raises|done].
  apply stages_preserve_missing. intros ->.
  repeat (apply elem_of_cons in Hc as [Hc|Hc]; [discriminate Hc|]).
  by apply elem_of_nil in Hc.
Qed.

(** C10: when the record set lacks [id], [living_area], [property_type] or
    [scraping_date], or lacks both [price] and [raw_price], the pipeline
    raises, and the main block then writes no output.  A missing [raw_price]
    alone is tolerated by price cleaning: one log entry, the record set
    unchanged. *)
Theorem missing_column_aborts st :
  (forall c,
     c ∈ ["id"; "living_area"; "property_type"; "scraping_date"] ->
     has_column (data st) c = false ->
     exists e st', validate_and_clean st = (Raise e, st')) /\
  (has_column (data st) "price" = false ->
   has_column (data st) "raw_price" = false ->
   exists e st', validate_and_clean st = (Raise e, st')) /\
  (has_column (data st) "raw_price" = false ->
   validate_clean_price st =
     (Ok tt, {| data := data st; log := log st ++ ["raw_price column missing."] |})) /\
  (forall json_loads read_csv read_avro fs path,
     DataProcessor_init json_loads read_csv read_avro fs path = Ok (data st) ->
     (exists c,
        c ∈ ["id"; "living_area"; "property_type"; "scraping_date"; "price"] /\
        missing c (data st)) ->
     fst (main json_loads read_csv read_avro fs path) = None).
Proof.
  split; [|split; [|split]].
  - intros c Hc Hm. apply (validate_and_clean_raises c).
    + repeat (apply elem_of_cons in Hc as [->|Hc]); [| | | |by apply elem_of_nil in Hc];
        repeat constructor.
    + split; [done|]. intros ->.
      repeat (apply elem_of_cons in Hc as [Hc|Hc]; [discriminate Hc|]).
      by apply elem_of_nil in Hc.
  - intros Hp Hr. apply (validate_and_clean_raises "price"); [repeat constructor|done].
  - intros Hr. by rewrite validate_clean_price_run, Hr.
  - intros json_loads read_csv read_avro fs path Hinit (c & Hc & Hm).
    unfold main. rewrite Hinit.
    destruct (validate_and_clean_raises c {| data := data st; log := [] |} Hc Hm)
      as (e & st' & ->). reflexivity.
Qed.

Lemma missing_column_aborts_witness :
  let fs := Sample.one_file (Json.dumps_str Sample.no_id_text) in
  let df := Sample.loaded Sample.no_id_text in
  DataProcessor_init Json.loads Sample.no_reader Sample.no_reader fs
    "data/listings.json" = Ok df /\
  columns df = ["price"; "living_area"; "property_type"; "scraping_date"] /\
  has_column df "id" = false /\
  has_column df "raw_price" = false /\
  (exists e st', validate_and_clean (Sample.start df) = (Raise e, st')) /\
  validate_clean_price (Sample.start df) =
    (Ok tt, {| data := df; log := ["raw_price column missing."] |}) /\
  fst (main Json.loads Sample.no_reader Sample.no_reader fs "data/listings.json") = None.
Proof.
  intros fs df.
  assert (Hinit : DataProcessor_init Json.loads Sample.no_reader Sample.no_reader fs
                    "data/listings.json" = Ok df) by (vm_compute; reflexivity).
  assert (Hid : has_column df "id" = false) by (vm_compute; reflexivity).
  assert (Hraw : has_column df "raw_price" = false) by (vm_compute; reflexivity).
  destruct (missing_column_aborts (Sample.start df)) as (H1 & _ & H3 & H4).
  split; [exact Hinit|]. split; [vm_compute; reflexivity|].
  split; [exact Hid|]. split; [exact Hraw|].
  split; [apply (H1 "id"); [repeat constructor|exact Hid]|].
  split; [exact (H3 Hraw)|].
  apply H4; [exact Hinit|]. exists "id".
  split; [repeat constructor|]. split; [exact Hid|discriminate].
Defined.

(** *** Loading *)

Lemma elem_of_foldl_add_column (ks acc : list string) (k : string) :
  k ∈ foldl add_column acc ks <-> k ∈ acc \/ k ∈ ks.
Proof.
  revert acc. induction ks as [|k' ks IH]; intros acc; simpl.
  - rewrite elem_of_nil. tauto.
  - rewrite IH, elem_of_cons. unfold add_column. case_bool_decide as Hin.
    + split; [tauto|]. intros [?|[->|?]]; tauto.
    + rewrite elem_of_app, list_elem_of_singleton. tauto.
Qed.

Lemma null_row_None (cols : list string) (k : string) :
  k ∉ cols -> null_row cols !! k = None.
Proof.
  intros Hk. unfold null_row. apply not_elem_of_list_to_map_1.
  intros Hin. apply Hk. apply list_elem_of_fmap in Hin as ([k' v] & -> & Hin).
  apply list_elem_of_In, in_map_iff in Hin as (c & [= <- _] & Hc).
  by apply list_elem_of_In.
Qed.

Lemma foldl_insert_None (rec : list (string * value)) (m : gmap string value)
    (k : string) :
  m !! k = None -> k ∉ map fst rec ->
  foldl (fun m '(k, v) => <[k := v]> m) m rec !! k = None.
Proof.
  revert m. induction rec as [|[k' v] rec IH]; intros m Hm Hk; [done|].
  simpl in *. apply not_elem_of_cons in Hk as [Hne Hk].
  apply IH; [|done]. by rewrite lookup_insert_ne.
Qed.

(** A row built by the constructor has no cell outside the columns. *)
Lemma DataFrame_of_records_rows recs k i r :
  has_column (DataFrame_of_records recs) k = false ->
  (i, r) ∈ rows (DataFrame_of_records recs) -> r !! k = None.
Proof.
  intros Hk Hin. apply has_column_false in Hk. simpl in Hk, Hin.
  apply elem_of_lookup_imap in Hin as (j & rec & [= -> ->] & Hrec).
  unfold record_columns in Hk. rewrite elem_of_foldl_add_column in Hk.
  apply foldl_insert_None.
  - apply null_row_None. unfold record_columns.
    rewrite elem_of_foldl_add_column. exact Hk.
  - intros Hin. apply Hk. right. apply list_elem_of_In, in_concat.
    exists (map fst rec). split; [|by apply list_elem_of_In].
    apply in_map, list_elem_of_In. by eapply list_elem_of_lookup_2.
Qed.

Lemma drop_ignore_inv c df df' :
  drop c true df = Ok df' ->
  has_column df' c = false /\
  labels df' = labels df /\
  (forall c', c' <> c -> has_column df' c' = has_column df c') /\
  (has_column df c = false -> df' = df) /\
  (has_column df c = true ->
   rows df' = map (fun '(i, r) => (i, delete c r)) (rows df)).
Proof.
  unfold drop. destruct (has_column df c) eqn:Hc; intros [= <-].
  - split; [|split; [|split; [|split; [discriminate|done]]]].
    + apply has_column_false; simpl. rewrite list_elem_of_In, filter_In.
      intros [_ H]. by rewrite String.eqb_refl in H.
    + unfold labels; simpl. rewrite map_map. apply map_ext. by intros [i r].
    + intros c' Hne. apply eq_true_iff_eq. rewrite !has_column_spec; simpl.
      rewrite list_elem_of_In, filter_In, <- list_elem_of_In.
      rewrite negb_true_iff, String.eqb_neq. tauto.
  - by repeat split.
Qed.

Section LoaderFacts.
Variable json_loads : string -> option json.
Variable read_csv read_avro : string -> result DataFrame.

Lemma decode_content_list content l :
  json_loads content = Some (JList l) ->
  decode_content json_loads content = Raise TypeError.
Proof. intros H. unfold decode_content, loads_object; simpl. by rewrite H. Qed.

Lemma decode_content_double content s v :
  json_loads content = Some (JStr s) -> json_loads s = Some v ->
  decode_content json_loads content = Ok v.
Proof.
  intros H1 H2. unfold decode_content, loads_object; simpl.
  rewrite H1; simpl. by rewrite H2.
Qed.

(** The handler of [JSONDecodeError] never yields a list: the value it
    decodes is either not there or the string that failed to decode twice. *)
Lemma decode_content_ok content v :
  decode_content json_loads content = Ok v ->
  exists s, json_loads content = Some (JStr s) /\
            (json_loads s = Some v \/ (json_loads s = None /\ v = JStr s)).
Proof.
  unfold decode_content, loads_object; simpl.
  destruct (json_loads content) as [x|] eqn:Hx; simpl; [|discriminate].
  destruct x; try discriminate.
  destruct (json_loads s) as [w|] eqn:Hw.
  - intros [= <-]. eauto.
  - intros [= <-]. eauto.
Qed.

Lemma load_data_json path content :
  lower (suffix path) = ".json" ->
  load_data json_loads read_csv read_avro path content =
  (data_list ← decode_content json_loads content;
   match data_list with
   | JList l => df ← DataFrame_of_json l; drop "municipality" true df
   | _ => Raise (ValueError "JSON content does not represent a list structure.")
   end).
Proof. unfold load_data. by intros ->. Qed.

Lemma load_data_csv path content :
  lower (suffix path) = ".csv" ->
  load_data json_loads read_csv read_avro path content = read_csv content.
Proof. unfold load_data. by intros ->. Qed.

Lemma load_data_json_inv path content df :
  lower (suffix path) = ".json" ->
  load_data json_loads read_csv read_avro path content = Ok df ->
  exists l recs,
    decode_content json_loads content = Ok (JList l) /\
    mapM record_of_json l = Some recs /\
    drop "municipality" true (DataFrame_of_records recs) = Ok df.
Proof.
  intros Hext. rewrite (load_data_json _ _ Hext).
  destruct (decode_content json_loads content) as [v|e]; [|discriminate].
  simpl. destruct v; try discriminate.
  unfold DataFrame_of_json. destruct (mapM record_of_json l) as [recs|] eqn:Hr;
    [|discriminate].
  simpl. eauto.
Qed.

End LoaderFacts.

(** C8: a frame loaded from a JSON file has no municipality column and no
    municipality cell; the drop leaves the other columns, the labels and,
    when there was no such column, the whole frame as the constructor built
    it, without raising.  A CSV file is loaded as [read_csv] returns it, a
    municipality column included. *)
Theorem municipality_dropped_from_json_only
    (json_loads : string -> option json)
    (read_csv read_avro : string -> result DataFrame) (path content : string) :
  (lower (suffix path) = ".json" ->
   (forall df,
      load_data json_loads read_csv read_avro path content = Ok df ->
      has_column df "municipality" = false /\
      forall i r, (i, r) ∈ rows df -> r !! "municipality" = None) /\
   (forall l df0,
      decode_content json_loads content = Ok (JList l) ->
      DataFrame_of_json l = Ok df0 ->
      exists df,
        load_data json_loads read_csv read_avro path content = Ok df /\
        labels df = labels df0 /\
        (forall c, c <> "municipality" -> has_column df c = has_column df0 c) /\
        (has_column df0 "municipality" = false -> df = df0) /\
        (has_column df0 "municipality" = true ->
         rows df = map (fun '(i, r) => (i, delete "municipality" r)) (rows df0)))) /\
  (lower (suffix path) = ".csv" ->
   load_data json_loads read_csv read_avro path content = read_csv content /\
   forall df,
     read_csv content = Ok df -> has_column df "municipality" = true ->
     exists df',
       load_data json_loads read_csv read_avro path content = Ok df' /\
       has_column df' "municipality" = true).
Proof.
  split.
  - intros Hext. split.
    + intros df Hload.
      apply (load_data_json_inv _ _ _ _ _ _ Hext) in Hload
        as (l & recs & _ & _ & Hdrop).
      apply drop_ignore_inv in Hdrop as (Hcol & _ & _ & Habs & Hpres).
      split; [exact Hcol|]. intros i r Hin.
      destruct (has_column (DataFrame_of_records recs) "municipality") eqn:Hm.
      * rewrite (Hpres eq_refl) in Hin.
        apply list_elem_of_In, in_map_iff in Hin as ([i0 r0] & [= _ <-] & _).
        apply lookup_delete_eq.
      * rewrite (Habs eq_refl) in Hin.
        by eapply DataFrame_of_records_rows.
    + intros l df0 Hdec Hdf. rewrite (load_data_json _ _ _ _ _ Hext), Hdec.
      simpl. rewrite Hdf. simpl.
      destruct (drop "municipality" true df0) as [df|e] eqn:Hdrop.
      * exists df. apply drop_ignore_inv in Hdrop as (_ & Hl & Hc & Habs & Hpres).
        by repeat split.
      * unfold drop in Hdrop. by destruct (has_column df0 "municipality").
  - intros Hext. rewrite (load_data_csv _ _ _ _ _ Hext).
    split; [reflexivity|]. intros df -> Hm. eauto.
Qed.

Lemma municipality_dropped_from_json_only_witness :
  let content := Json.dumps_str Sample.listings_text in
  let load := load_data Json.loads Sample.csv_reader Sample.no_reader in
  lower (suffix "data/listings.json") = ".json" /\
  lower (suffix "data/listings.CSV") = ".csv" /\
  has_column Sample.with_municipality "municipality" = true /\
  (exists df,
     load "data/listings.json" content = Ok df /\
     columns df = ["id"; "price"; "living_area"; "property_type"; "scraping_date"] /\
     has_column df "municipality" = false) /\
  (exists df',
     load "data/listings.CSV" content = Ok df' /\
     has_column df' "municipality" = true).
Proof.
  intros content load.
  assert (Hjson : lower (suffix "data/listings.json") = ".json") by reflexivity.
  assert (Hcsv : lower (suffix "data/listings.CSV") = ".csv") by reflexivity.
  split; [exact Hjson|]. split; [exact Hcsv|]. split; [reflexivity|]. split.
  - destruct (load "data/listings.json" content) as [df|e] eqn:Hload;
      [|vm_compute in Hload; discriminate Hload].
    exists df. split; [reflexivity|].
    split; [vm_compute in Hload; by injection Hload as <-|].
    exact (proj1 (proj1 (proj1 (municipality_dropped_from_json_only
             Json.loads Sample.csv_reader Sample.no_reader
             "data/listings.json" content) Hjson) df Hload)).
  - exact (proj2 (proj2 (municipality_dropped_from_json_only
             Json.loads Sample.csv_reader Sample.no_reader
             "data/listings.CSV" content) Hcsv) Sample.with_municipality
             eq_refl eq_refl).
Defined.

(** C3: a file that holds a plain JSON array of listings is not loaded: the
    first decoding yields a list, the second decoding is then applied to
    that list and raises [TypeError], which the handler of
    [JSONDecodeError] does not catch.  The same array encoded once more as a
    JSON string is loaded. *)
Theorem plain_json_array_raises :
  (exists l, Json.loads Sample.listings_text = Some (JList l) /\ length l = 2%nat) /\
  load_data Json.loads Sample.no_reader Sample.no_reader
    "data/listings.json" Sample.listings_text = Raise TypeError /\
  (exists df,
     load_data Json.loads Sample.no_reader Sample.no_reader
       "data/listings.json" (Json.dumps_str Sample.listings_text) = Ok df /\
     labels df = [0; 1]%nat).
Proof.
  split; [|split].
  - destruct (Json.loads Sample.listings_text) as [[| | | | |l|]|] eqn:H;
      try (vm_compute in H; discriminate H).
    exists l. split; [reflexivity|].
    vm_compute in H. by injection H as <-.
  - vm_compute. reflexivity.
  - destruct (load_data _ _ _ _ (Json.dumps_str _)) as [df|e] eqn:H;
      [|vm_compute in H; discriminate H].
    exists df. split; [reflexivity|].
    vm_compute in H. by injection H as <-.
Qed.

(** ** Further properties of the loader *)



Lemma json_load_only_double_encoded_aux
    (json_loads : string -> option json)
    (read_csv read_avro : string -> result DataFrame) (path content : string) df :
  lower (suffix path) = ".json" ->
  load_data json_loads read_csv read_avro path content = Ok df ->
  exists s l,
    json_loads content = Some (JStr s) /\
    json_loads s = Some (JList l) /\
    (df0 ← DataFrame_of_json l; drop "municipality" true df0) = Ok df.
Proof.
  intros Hext Hload. rewrite (load_data_json _ _ _ _ _ Hext) in Hload.
  destruct (decode_content json_loads content) as [v|e] eqn:Hdec; [|discriminate].
  simpl in Hload. destruct v; try discriminate.
  apply decode_content_ok in Hdec as (s & Hs & [Hl|[_ Hl]]); [|discriminate].
  by exists s, l.
Qed.

(** X1: a JSON file is loaded only when its text is a JSON string whose own
    text is a JSON array: the handler of [JSONDecodeError] never supplies
    the list. *)
Theorem json_load_only_double_encoded
    (json_loads : string -> option json)
    (read_csv read_avro : string -> result DataFrame) (path content : string) df :
  lower (suffix path) = ".json" ->
  load_data json_loads read_csv read_avro path content = Ok df ->
  exists s l,
    json_loads content = Some (JStr s) /\
    json_loads s = Some (JList l) /\
    (df0 ← DataFrame_of_json l; drop "municipality" true df0) = Ok df.
Proof. apply json_load_only_double_encoded_aux. Qed.

Lemma json_load_only_double_encoded_witness :
  let content := Json.dumps_str Sample.listings_text in
  lower (suffix "data/listings.json") = ".json" /\
  exists df s l,
    load_data Json.loads Sample.no_reader Sample.no_reader
      "data/listings.json" content = Ok df /\
    Json.loads content = Some (JStr s) /\ Json.loads s = Some (JList l).
Proof.
  intros content. split; [reflexivity|].
  destruct (load_data Json.loads Sample.no_reader Sample.no_reader
              "data/listings.json" content) as [df|e] eqn:Hload;
    [|vm_compute in Hload; discriminate Hload].
  destruct (json_load_only_double_encoded Json.loads Sample.no_reader
              Sample.no_reader "data/listings.json" content df eq_refl Hload)
    as (s & l & Hs & Hl & _).
  exists df, s, l. split; [reflexivity|]. split; [exact Hs|exact Hl].
Defined.

(** X2: how a JSON file fails to load.  Text that is not JSON at all raises
    the value error about parsing; JSON text whose value is not a string (an
    array, an object, a number) raises [TypeError]; a JSON string whose text
    is not JSON, or is JSON but not an array, raises the value error about
    the list structure. *)
Theorem json_load_failures
    (json_loads : string -> option json)
    (read_csv read_avro : string -> result DataFrame) (path content : string) :
  lower (suffix path) = ".json" ->
  (json_loads content = None ->
   load_data json_loads read_csv read_avro path content =
     Raise (ValueError "Unable to parse the provided JSON data.")) /\
  (forall v, json_loads content = Some v -> (forall s, v <> JStr s) ->
   load_data json_loads read_csv read_avro path content = Raise TypeError) /\
  (forall s, json_loads content = Some (JStr s) ->
   json_loads s = None \/
   (exists v, json_loads s = Some v /\ forall l, v <> JList l) ->
   load_data json_loads read_csv read_avro path content =
     Raise (ValueError "JSON content does not represent a list structure.")).
Proof.
  intros Hext. rewrite (load_data_json _ _ _ _ _ Hext).
  unfold decode_content, loads_object; simpl. split; [|split].
  - by intros ->.
  - intros v -> Hv. destruct v; try reflexivity. by destruct (Hv s).
  - intros s -> [Hs|(v & Hs & Hv)]; simpl; rewrite Hs; simpl; [reflexivity|].
    destruct v; try reflexivity. by destruct (Hv l).
Qed.

Lemma json_load_failures_witness :
  let load := load_data Json.loads Sample.no_reader Sample.no_reader
                "data/listings.json" in
  lower (suffix "data/listings.json") = ".json" /\
  load "not json" = Raise (ValueError "Unable to parse the provided JSON data.") /\
  load "{}" = Raise TypeError /\
  load (Json.dumps_str "not json") =
    Raise (ValueError "JSON content does not represent a list structure.") /\
  load (Json.dumps_str "{}") =
    Raise (ValueError "JSON content does not represent a list structure.").
Proof.
  intros load.
  assert (Hext : lower (suffix "data/listings.json") = ".json") by reflexivity.
  split; [exact Hext|].
  split; [apply (json_load_failures _ _ _ _ "not json" Hext); reflexivity|].
  split.
  { apply (proj1 (proj2 (json_load_failures _ _ _ _ "{}" Hext)) (JObj []));
      [reflexivity|discriminate]. }
  split.
  - apply (proj2 (proj2 (json_load_failures _ _ _ _ _ Hext)) "not json");
      [reflexivity|left; reflexivity].
  - apply (proj2 (proj2 (json_load_failures _ _ _ _ _ Hext)) "{}");
      [reflexivity|right; exists (JObj []); split; [reflexivity|discriminate]].
Defined.



(** ** Further properties of the pipeline *)

Lemma StronglySorted_sublist {A} (R : A -> A -> Prop) (l1 l2 : list A) :
  l1 `sublist_of` l2 -> StronglySorted R l2 -> StronglySorted R l1.
Proof.
  induction 1 as [|x l1 l2 Hsub IH|x l1 l2 Hsub IH]; intros Hs; [constructor|..];
    apply StronglySorted_inv in Hs as [Hs Hall].
  - constructor; [by apply IH|].
    apply List.Forall_forall. intros y Hy.
    eapply List.Forall_forall; [exact Hall|].
    apply list_elem_of_In. eapply elem_of_sublist; [|exact Hsub].
    by apply list_elem_of_In.
  - by apply IH.
Qed.

Lemma StronglySorted_seq (k n : nat) : StronglySorted lt (seq k n).
Proof.
  revert k. induction n as [|n IH]; intros k; simpl; constructor; [apply IH|].
  apply List.Forall_forall. intros i Hi. apply in_seq in Hi. lia.
Qed.

(** X4: when the rows are labelled 0, 1, ..., n-1, as in a frame loaded from
    a JSON file, the labels of the rows that survive the pipeline are
    strictly increasing numbers below n: each survivor is still known by its
    position in the file. *)
Theorem surviving_labels_increasing st st' (n : nat) :
  labels (data st) = seq 0 n ->
  validate_and_clean st = (Ok tt, st') ->
  StronglySorted lt (labels (data st')) /\
  Forall (fun i => (i < n)%nat) (labels (data st')) /\
  (length (rows (data st')) <= n)%nat.
Proof.
  intros Hlab Hrun. apply validate_and_clean_rows in Hrun as [_ Hrows].
  assert (Hsub : labels (data st') `sublist_of` seq 0 n).
  { rewrite <- Hlab, <- (labels_price_cleaned (data st)). unfold labels.
    rewrite Hrows. apply sublist_map. etrans; apply filter_sublist. }
  split; [|split].
  - eapply StronglySorted_sublist; [exact Hsub|apply StronglySorted_seq].
  - apply List.Forall_forall. intros i Hi.
    apply list_elem_of_In in Hi. eapply elem_of_sublist in Hi; [|exact Hsub].
    apply list_elem_of_In, in_seq in Hi. lia.
  - apply sublist_length in Hsub. unfold labels in Hsub.
    by rewrite length_map, length_seq in Hsub.
Qed.

Lemma surviving_labels_increasing_witness :
  let st := Sample.start Sample.raw in
  let st' := snd (validate_and_clean st) in
  labels (data st) = seq 0 3 /\
  validate_and_clean st = (Ok tt, st') /\
  labels (data st') = [2%nat] /\
  StronglySorted lt (labels (data st')).
Proof.
  intros st st'.
  assert (Hlab : labels (data st) = seq 0 3) by reflexivity.
  assert (Hrun : validate_and_clean st = (Ok tt, st')) by (vm_compute; reflexivity).
  split; [exact Hlab|]. split; [exact Hrun|]. split; [vm_compute; reflexivity|].
  exact (proj1 (surviving_labels_increasing st st' 3 Hlab Hrun)).
Defined.

(** X5: a row survives the pipeline exactly when, once its price is
    cleaned, it passes the living-area test and the price-per-area test: no
    row that passes both is ever dropped. *)
Theorem rows_survive_iff_valid st st' i r :
  validate_and_clean st = (Ok tt, st') ->
  (i, r) ∈ rows (data st') <->
  (i, r) ∈ rows (price_cleaned (data st)) /\
  area_valid r = true /\ ppsqm_valid r = true.
Proof.
  intros Hrun. apply validate_and_clean_rows in Hrun as [_ ->].
  rewrite !list_elem_of_In, !filter_In. tauto.
Qed.

Lemma rows_survive_iff_valid_witness :
  let st := Sample.start Sample.priced in
  let st' := snd (validate_and_clean st) in
  validate_and_clean st = (Ok tt, st') /\
  rows (price_cleaned (data st)) !! 0%nat = Some (0%nat, Sample.priced_first) /\
  area_valid Sample.priced_first = true /\
  ppsqm_valid Sample.priced_first = true /\
  (0%nat, Sample.priced_first) ∈ rows (data st').
Proof.
  intros st st'.
  assert (Hrun : validate_and_clean st = (Ok tt, st')) by (vm_compute; reflexivity).
  assert (Hr : rows (price_cleaned (data st)) !! 0%nat =
               Some (0%nat, Sample.priced_first)) by (vm_compute; reflexivity).
  assert (Ha : area_valid Sample.priced_first = true) by (vm_compute; reflexivity).
  assert (Hp : ppsqm_valid Sample.priced_first = true) by (vm_compute; reflexivity).
  split; [exact Hrun|]. split; [exact Hr|]. split; [exact Ha|]. split; [exact Hp|].
  apply (rows_survive_iff_valid st st' 0%nat Sample.priced_first Hrun).
  split; [|split; [exact Ha|exact Hp]].
  eapply list_elem_of_lookup_2. exact Hr.
Defined.

Lemma DataFrame_eq (a b : DataFrame) :
  columns a = columns b -> rows a = rows b -> a = b.
Proof. destruct a, b; simpl; by intros -> ->. Qed.

Lemma price_cleaned_has_column df c :
  c <> "price" -> c <> "raw_price" ->
  has_column (price_cleaned df) c = has_column df c.
Proof.
  intros Hp Hr. unfold price_cleaned. destruct (has_column df "raw_price"); [|done].
  by apply clean_price_frame_has_column.
Qed.

Lemma price_cleaned_has_raw_price df : has_column (price_cleaned df) "raw_price" = false.
Proof.
  unfold price_cleaned. destruct (has_column df "raw_price") eqn:H; [|exact H].
  apply clean_price_frame_has_raw_price.
Qed.

Lemma log_only_stage_ok_inv st st' :
  (validate_id_column st = (Ok tt, st') -> has_column (data st) "id" = true) /\
  (validate_property_type st = (Ok tt, st') ->
   has_column (data st) "property_type" = true) /\
  (validate_scraping_date st = (Ok tt, st') ->
   has_column (data st) "scraping_date" = true).
Proof.
  rewrite validate_id_column_run, validate_property_type_run,
    validate_scraping_date_run.
  repeat split; intros H.
  - destruct (getitem _ _) eqn:Hg; [by apply getitem_inv in Hg as [? _]|discriminate].
  - destruct (getitem _ _) eqn:Hg; [by apply getitem_inv in Hg as [? _]|discriminate].
  - destruct (getitem _ _) eqn:Hg; [by apply getitem_inv in Hg as [? _]|discriminate].
Qed.

(** The columns of the frame a successful run leaves. *)
Lemma validate_and_clean_columns st st' :
  validate_and_clean st = (Ok tt, st') ->
  has_column (data st') "id" = true /\
  has_column (data st') "price" = true /\
  has_column (data st') "living_area" = true /\
  has_column (data st') "property_type" = true /\
  has_column (data st') "scraping_date" = true /\
  has_column (data st') "raw_price" = false /\
  forall c, c <> "price" -> c <> "raw_price" ->
            has_column (data st') c = has_column (data st) c.
Proof.
  intros H. pose proof (validate_and_clean_rows _ _ H) as [Hcols _].
  apply validate_and_clean_inv in H
    as (st1 & st2 & st3 & st4 & st5 & H1 & H2 & H3 & H4 & H5 & H6).
  pose proof (proj1 (log_only_stage_ok_inv _ _) H1) as Hid.
  pose proof (proj1 (proj2 (log_only_stage_ok_inv _ _)) H5) as Hpt.
  pose proof (proj2 (proj2 (log_only_stage_ok_inv _ _)) H6) as Hsd.
  apply validate_scraping_date_data in H6.
  apply validate_property_type_data in H5.
  apply filter_by_price_per_sqm_rows in H4 as (Hc4 & Hp & Ha & _).
  rewrite <- H5, <- H6 in Hc4.
  assert (Hother : forall c, c <> "price" -> c <> "raw_price" ->
            has_column (data st') c = has_column (data st) c).
  { intros c Hcp Hcr. rewrite (has_column_columns _ _ _ Hcols).
    by apply price_cleaned_has_column. }
  split; [by rewrite Hother|].
  split; [by rewrite (has_column_columns _ _ _ Hc4)|].
  split; [by rewrite (has_column_columns _ _ _ Hc4)|].
  split; [by rewrite H6, H5|]. split; [by rewrite H6|].
  split; [|exact Hother].
  rewrite (has_column_columns _ _ _ Hcols). apply price_cleaned_has_raw_price.
Qed.

(** X6: the pipeline touches no column but [price] and [raw_price]: the
    other columns of the frame stay, and every surviving row holds, under
    each of them, the cell the loaded row with the same label held.  The
    frame it leaves has a [price] column and no [raw_price] column. *)
Theorem other_columns_untouched st st' :
  validate_and_clean st = (Ok tt, st') ->
  (forall c, c <> "price" -> c <> "raw_price" ->
             has_column (data st') c = has_column (data st) c) /\
  has_column (data st') "price" = true /\
  has_column (data st') "raw_price" = false /\
  forall i r', (i, r') ∈ rows (data st') ->
    exists r, (i, r) ∈ rows (data st) /\
              forall c, c <> "price" -> c <> "raw_price" -> r' !! c = r !! c.
Proof.
  intros H. pose proof (validate_and_clean_columns _ _ H)
    as (_ & Hp & _ & _ & _ & Hr & Hother).
  split; [exact Hother|]. split; [exact Hp|]. split; [exact Hr|].
  intros i r' Hin. apply validate_and_clean_rows in H as [_ Hrows].
  rewrite Hrows in Hin.
  apply list_elem_of_In, filter_In in Hin as [Hin _].
  apply filter_In in Hin as [Hin _].
  unfold price_cleaned in Hin. destruct (has_column (data st) "raw_price").
  - unfold clean_price_frame in Hin; simpl in Hin.
    apply in_map_iff in Hin as ([i0 r] & [= -> <-] & Hin).
    exists r. split; [by apply list_elem_of_In|].
    intros c Hcp Hcr. unfold clean_row.
    by rewrite lookup_delete_ne, lookup_insert_ne.
  - exists r'. split; [by apply list_elem_of_In|done].
Qed.

Lemma other_columns_untouched_witness :
  let st := Sample.start Sample.raw in
  let st' := snd (validate_and_clean st) in
  validate_and_clean st = (Ok tt, st') /\
  columns (data st) = ["id"; "raw_price"; "living_area"; "property_type";
                       "scraping_date"] /\
  columns (data st') = ["id"; "living_area"; "property_type"; "scraping_date";
                        "price"] /\
  has_column (data st') "price" = true /\
  has_column (data st') "raw_price" = false.
Proof.
  intros st st'.
  assert (Hrun : validate_and_clean st = (Ok tt, st')) by (vm_compute; reflexivity).
  split; [exact Hrun|]. split; [vm_compute; reflexivity|].
  split; [vm_compute; reflexivity|].
  destruct (other_columns_untouched st st' Hrun) as (_ & Hp & Hr & _).
  by split.
Defined.

Lemma run_stages_cons_inv stage l st st' :
  run_stages (stage :: l) st = (Ok tt, st') ->
  exists st1, stage st = (Ok tt, st1) /\ run_stages l st1 = (Ok tt, st').
Proof.
  rewrite run_stages_cons. intros H.
  apply bind_ok_inv in H as ([] & st1 & H1 & H). eauto.
Qed.

Lemma run_stages_nil_inv st st' : run_stages [] st = (Ok tt, st') -> st' = st.
Proof. by intros [= <-]. Qed.

Lemma filter_comm {A} (f g : A -> bool) (l : list A) :
  List.filter f (List.filter g l) = List.filter g (List.filter f l).
Proof.
  induction l as [|x l IH]; [reflexivity|]. simpl.
  destruct (g x) eqn:Hg, (f x) eqn:Hf; simpl; rewrite ?Hg, ?Hf, IH; reflexivity.
Qed.

Lemma filter_all_true {A} (f : A -> bool) (l : list A) :
  Forall (fun x => f x = true) l -> List.filter f l = l.
Proof.
  induction 1 as [|x l Hx _ IH]; [reflexivity|]. simpl. by rewrite Hx, IH.
Qed.

(** X7: when the pipeline and the sequence with the price-per-area filter
    ahead of the living-area validation both return, they leave the same
    record set: the order of the two removing stages shows in the log and
    in which exception a bad cell raises, never in the rows kept. *)
Theorem removal_order_same_data st st1 st2 :
  validate_and_clean st = (Ok tt, st1) ->
  run_stages spec_stages st = (Ok tt, st2) ->
  data st1 = data st2.
Proof.
  intros H1 H2. apply validate_and_clean_rows in H1 as [Hc1 Hr1].
  unfold spec_stages in H2.
  apply run_stages_cons_inv in H2 as (s1 & Hid & H2).
  apply run_stages_cons_inv in H2 as (s2 & Hprice & H2).
  apply run_stages_cons_inv in H2 as (s3 & Hfilter & H2).
  apply run_stages_cons_inv in H2 as (s4 & Harea & H2).
  apply run_stages_cons_inv in H2 as (s5 & Htype & H2).
  apply run_stages_cons_inv in H2 as (s6 & Hdate & H2).
  apply run_stages_nil_inv in H2 as ->.
  apply validate_id_column_data in Hid.
  apply validate_clean_price_data in Hprice.
  apply filter_by_price_per_sqm_rows in Hfilter as (Hc3 & _ & _ & _ & Hr3 & _).
  apply validate_living_area_rows in Harea as (Hc4 & _ & _ & Hr4 & _).
  apply validate_property_type_data in Htype.
  apply validate_scraping_date_data in Hdate.
  apply DataFrame_eq.
  - by rewrite Hc1, Hdate, Htype, Hc4, Hc3, Hprice, Hid.
  - rewrite Hr1, Hdate, Htype, Hr4, Hr3, Hprice, Hid. apply filter_comm.
Qed.

Lemma removal_order_same_data_witness :
  let st := Sample.start Sample.tiny in
  let st1 := snd (validate_and_clean st) in
  let st2 := snd (run_stages spec_stages st) in
  validate_and_clean st = (Ok tt, st1) /\
  run_stages spec_stages st = (Ok tt, st2) /\
  log st1 <> log st2 /\
  data st1 = data st2.
Proof.
  intros st st1 st2.
  assert (H1 : validate_and_clean st = (Ok tt, st1)) by (vm_compute; reflexivity).
  assert (H2 : run_stages spec_stages st = (Ok tt, st2)) by (vm_compute; reflexivity).
  split; [exact H1|]. split; [exact H2|].
  split; [vm_compute; discriminate|].
  exact (removal_order_same_data st st1 st2 H1 H2).
Defined.

(** *** Running the pipeline again *)

Lemma smapM_column_ok {B} (f : value -> result B) (g : gmap string value -> value)
    (l : list (nat * gmap string value)) :
  Forall (fun '(_, r) => exists b, f (g r) = Ok b) l ->
  exists s, smapM f (map (fun '(i, r) => (i, g r)) l) = Ok s.
Proof.
  induction 1 as [|[i r] l [b Hb] _ [s IH]]; simpl; [eauto|].
  rewrite Hb; simpl. rewrite IH; simpl. eauto.
Qed.

Lemma truediv_columns_ok (l : list (nat * gmap string value)) (c1 c2 : string) :
  Forall (fun '(_, r) => exists q, truediv_cell (cell r c1) (cell r c2) = Ok q) l ->
  exists s, truediv (map (fun '(i, r) => (i, cell r c1)) l)
                    (map (fun '(i, r) => (i, cell r c2)) l) = Ok s.
Proof.
  induction 1 as [|[i r] l [q Hq] _ [s IH]]; simpl; [eauto|].
  rewrite Hq; simpl. rewrite IH; simpl. eauto.
Qed.

Lemma validate_living_area_total st :
  has_column (data st) "living_area" = true ->
  Forall (fun '(_, r) => exists b, between_cell 10 500 (cell r "living_area") = Ok b)
    (rows (data st)) ->
  exists st', validate_living_area st = (Ok tt, st').
Proof.
  intros Hc Hall. rewrite validate_living_area_run, (getitem_ok _ _ Hc).
  destruct (smapM_column_ok _ _ _ Hall) as [s ->]. eauto.
Qed.

Lemma filter_by_price_per_sqm_total st :
  has_column (data st) "price" = true ->
  has_column (data st) "living_area" = true ->
  Forall (fun '(_, r) =>
            exists q, truediv_cell (cell r "price") (cell r "living_area") = Ok q)
    (rows (data st)) ->
  exists st', filter_by_price_per_sqm st = (Ok tt, st').
Proof.
  intros Hp Ha Hall.
  rewrite filter_by_price_per_sqm_run, (getitem_ok _ _ Hp), (getitem_ok _ _ Ha).
  destruct (truediv_columns_ok _ _ _ Hall) as [s ->]. eauto.
Qed.

Lemma area_valid_ok r :
  area_valid r = true -> exists b, between_cell 10 500 (cell r "living_area") = Ok b.
Proof. intros H. apply area_valid_inv in H. eauto. Qed.

Lemma ppsqm_valid_ok r :
  ppsqm_valid r = true ->
  exists q, truediv_cell (cell r "price") (cell r "living_area") = Ok q.
Proof.
  unfold ppsqm_valid. destruct (truediv_cell _ _); [eauto|discriminate].
Qed.

Lemma filter_rows_all_true (f : gmap string value -> bool)
    (l : list (nat * gmap string value)) :
  Forall (fun '(_, r) => f r = true) l -> List.filter (fun '(_, r) => f r) l = l.
Proof.
  intros H. apply filter_all_true. eapply List.Forall_impl; [|exact H].
  by intros [i r].
Qed.

Lemma log_only_stages_total st :
  (has_column (data st) "id" = true ->
   exists st', validate_id_column st = (Ok tt, st') /\ data st' = data st) /\
  (has_column (data st) "property_type" = true ->
   exists st', validate_property_type st = (Ok tt, st') /\ data st' = data st) /\
  (has_column (data st) "scraping_date" = true ->
   exists st', validate_scraping_date st = (Ok tt, st') /\ data st' = data st).
Proof.
  rewrite validate_id_column_run, validate_property_type_run,
    validate_scraping_date_run.
  repeat split; intros H; rewrite (getitem_ok _ _ H); eauto.
Qed.

Lemma validate_living_area_keeps_valid st :
  has_column (data st) "living_area" = true ->
  Forall (fun '(_, r) => area_valid r = true) (rows (data st)) ->
  exists st', validate_living_area st = (Ok tt, st') /\ data st' = data st /\
              log st' = log st.
Proof.
  intros Hc Hall. destruct (validate_living_area_total st Hc) as [st' H].
  { eapply List.Forall_impl; [|exact Hall]. intros [i r]. apply area_valid_ok. }
  exists st'. split; [exact H|].
  apply validate_living_area_rows in H as (C & _ & _ & R & L).
  rewrite filter_rows_all_true in R by exact Hall.
  split; [by apply DataFrame_eq|].
  rewrite L. unfold log_lines, any.
  assert (existsb snd (map (fun '(i, r) => (i, negb (area_valid r))) (rows (data st)))
          = false) as ->; [|apply app_nil_r].
  apply not_true_is_false. intros Hex.
  apply existsb_exists in Hex as ([i b] & Hin & Hb). simpl in Hb. subst b.
  apply in_map_iff in Hin as ([i0 r] & [= _ Hv] & Hin).
  eapply List.Forall_forall in Hall; [|exact Hin]. simpl in Hall.
  by rewrite Hall in Hv.
Qed.

Lemma filter_by_price_per_sqm_keeps_valid st :
  has_column (data st) "price" = true ->
  has_column (data st) "living_area" = true ->
  Forall (fun '(_, r) => ppsqm_valid r = true) (rows (data st)) ->
  exists st', filter_by_price_per_sqm st = (Ok tt, st') /\ data st' = data st.
Proof.
  intros Hp Ha Hall. destruct (filter_by_price_per_sqm_total st Hp Ha) as [st' H].
  { eapply List.Forall_impl; [|exact Hall]. intros [i r]. apply ppsqm_valid_ok. }
  exists st'. split; [exact H|].
  apply filter_by_price_per_sqm_rows in H as (C & _ & _ & _ & R & _).
  rewrite filter_rows_all_true in R by exact Hall. by apply DataFrame_eq.
Qed.

(** A frame with the five columns, no [raw_price] column, and rows that all
    pass both range tests goes through the pipeline unchanged. *)
Lemma validate_and_clean_clean_frame st :
  has_column (data st) "id" = true ->
  has_column (data st) "price" = true ->
  has_column (data st) "living_area" = true ->
  has_column (data st) "property_type" = true ->
  has_column (data st) "scraping_date" = true ->
  has_column (data st) "raw_price" = false ->
  Forall (fun '(_, r) => ppsqm_valid r = true /\ area_valid r = true)
    (rows (data st)) ->
  exists st', validate_and_clean st = (Ok tt, st') /\ data st' = data st.
Proof.
  intros Hid Hp Ha Ht Hd Hraw Hall.
  destruct (proj1 (log_only_stages_total st) Hid) as (s1 & H1 & D1).
  assert (H2 : validate_clean_price s1 =
               (Ok tt, with_log s1 ["raw_price column missing."])).
  { by rewrite validate_clean_price_run, D1, Hraw. }
  set (s2 := with_log s1 ["raw_price column missing."]) in H2.
  assert (D2 : data s2 = data st) by exact D1.
  destruct (validate_living_area_keeps_valid s2) as (s3 & H3 & D3 & _).
  { by rewrite D2. }
  { rewrite D2. eapply List.Forall_impl; [|exact Hall]. by intros [i r] [_ ?]. }
  rewrite D2 in D3.
  destruct (filter_by_price_per_sqm_keeps_valid s3) as (s4 & H4 & D4).
  { by rewrite D3. } { by rewrite D3. }
  { rewrite D3. eapply List.Forall_impl; [|exact Hall]. by intros [i r] [? _]. }
  rewrite D3 in D4.
  destruct (proj1 (proj2 (log_only_stages_total s4))) as (s5 & H5 & D5).
  { by rewrite D4. }
  rewrite D4 in D5.
  destruct (proj2 (proj2 (log_only_stages_total s5))) as (s6 & H6 & D6).
  { by rewrite D5. }
  rewrite D5 in D6.
  exists s6. split; [|exact D6].
  unfold validate_and_clean.
  rewrite (bind_ok _ _ _ _ _ H1), (bind_ok _ _ _ _ _ H2), (bind_ok _ _ _ _ _ H3),
    (bind_ok _ _ _ _ _ H4), (bind_ok _ _ _ _ _ H5).
  exact H6.
Qed.

(** X8: cleaning a record set that has been cleaned changes nothing in it:
    after a run that returns, a second run returns as well and leaves the
    record set of the first. *)
Theorem validate_and_clean_idempotent st st' :
  validate_and_clean st = (Ok tt, st') ->
  exists st'', validate_and_clean st' = (Ok tt, st'') /\ data st'' = data st'.
Proof.
  intros H.
  pose proof (validate_and_clean_columns _ _ H)
    as (Hid & Hp & Ha & Ht & Hd & Hraw & _).
  apply validate_and_clean_clean_frame; try done.
  by apply (survivors st).
Qed.

Lemma validate_and_clean_idempotent_witness :
  let st := Sample.start Sample.raw in
  let st' := snd (validate_and_clean st) in
  validate_and_clean st = (Ok tt, st') /\
  labels (data st) = [0; 1; 2]%nat /\ labels (data st') = [2%nat] /\
  exists st'', validate_and_clean st' = (Ok tt, st'') /\ data st'' = data st'.
Proof.
  intros st st'.
  assert (Hrun : validate_and_clean st = (Ok tt, st')) by (vm_compute; reflexivity).
  split; [exact Hrun|]. split; [reflexivity|]. split; [vm_compute; reflexivity|].
  exact (validate_and_clean_idempotent st st' Hrun).
Defined.

(** ** Further properties of the log *)

Lemma log_lines_length condition message :
  (length (log_lines condition message) <= 1)%nat.
Proof. unfold log_lines. destruct (any condition); simpl; lia. Qed.

Lemma appends_at_most_bind k1 k2 (m n : M unit) :
  appends_at_most k1 m -> appends_at_most k2 n ->
  appends_at_most (k1 + k2) (m;; n).
Proof.
  intros Hm Hn st. destruct (Hm st) as (l1 & Hl1 & Hk1).
  unfold mbind, M_bind. destruct (m st) as [[[]|e] st1]; simpl in *.
  - destruct (Hn st1) as (l2 & Hl2 & Hk2). exists (l1 ++ l2).
    rewrite Hl2, Hl1, app_assoc, length_app. split; [done|lia].
  - exists l1. split; [done|lia].
Qed.

Lemma stages_append_at_most :
  appends_at_most 2 validate_id_column /\
  appends_at_most 1 validate_clean_price /\
  appends_at_most 1 validate_living_area /\
  appends_at_most 0 filter_by_price_per_sqm /\
  appends_at_most 1 validate_property_type /\
  appends_at_most 1 validate_scraping_date.
Proof.
  assert (Hnil : forall st : state, exists lines : list string,
            log st = log st ++ lines /\ (length lines <= 0)%nat).
  { intros st. exists []. by rewrite app_nil_r. }
  repeat split; intros st.
  - rewrite validate_id_column_run. destruct (getitem _ _).
    + eexists. split; [reflexivity|]. rewrite length_app.
      pose proof (log_lines_length (smap value_isnull a) "Null IDs found.").
      pose proof (log_lines_length (invert (smap astype_str_isnumeric a))
                    "ID is not a string or numeric.").
      lia.
    + destruct (Hnil st) as (l & Hl & Hk). exists l. split; [done|lia].
  - rewrite validate_clean_price_run. destruct (has_column _ _).
    + destruct (str_accessor _).
      * eexists. split; [reflexivity|apply log_lines_length].
      * destruct (Hnil st) as (l & Hl & Hk). exists l. split; [done|lia].
    + eexists. split; [reflexivity|]. simpl. lia.
  - rewrite validate_living_area_run. destruct (getitem _ _) as [area|e].
    + destruct (smapM _ _).
      * eexists. split; [reflexivity|apply log_lines_length].
      * destruct (Hnil st) as (l & Hl & Hk). exists l. split; [done|lia].
    + destruct (Hnil st) as (l & Hl & Hk). exists l. split; [done|lia].
  - rewrite filter_by_price_per_sqm_run.
    destruct (getitem _ "price"); [|apply Hnil].
    destruct (getitem _ "living_area"); [|apply Hnil].
    destruct (truediv _ _); [|apply Hnil].
    exists []. simpl. by rewrite app_nil_r.
  - rewrite validate_property_type_run. destruct (getitem _ _).
    + eexists. split; [reflexivity|apply log_lines_length].
    + destruct (Hnil st) as (l & Hl & Hk). exists l. split; [done|lia].
  - rewrite validate_scraping_date_run. destruct (getitem _ _).
    + eexists. split; [reflexivity|apply log_lines_length].
    + destruct (Hnil st) as (l & Hl & Hk). exists l. split; [done|lia].
Qed.

Lemma validate_and_clean_appends_at_most : appends_at_most 6 validate_and_clean.
Proof.
  destruct stages_append_at_most as (H1 & H2 & H3 & H4 & H5 & H6).
  exact (appends_at_most_bind 2 4 _ _ H1
           (appends_at_most_bind 1 3 _ _ H2
              (appends_at_most_bind 1 2 _ _ H3
                 (appends_at_most_bind 0 2 _ _ H4
                    (appends_at_most_bind 1 1 _ _ H5 H6))))).
Qed.

(** X9: a run of the pipeline, whether it returns or raises, keeps every
    entry the log held and appends at most six entries. *)
Theorem log_only_grows st :
  exists lines,
    log (snd (validate_and_clean st)) = log st ++ lines /\
    (length lines <= 6)%nat.
Proof. apply validate_and_clean_appends_at_most. Qed.

Lemma log_lines_all_labels condition message df :
  index condition = labels df ->
  Forall (fun line => line = message +:+ " Indices: " +:+ all_labels_text df)
    (log_lines condition message).
Proof.
  intros H. unfold log_lines, all_labels_text. rewrite H.
  destruct (any condition); repeat constructor.
Qed.

(** X10: every line with identifiers that a stage writes lists the labels
    of all rows of the record set the stage runs on, the rows that satisfy
    the rule among them; the only other line is the one about a missing
    [raw_price] column. *)
Theorem log_lines_name_all_rows :
  Forall (fun stage : M unit => forall st st',
            stage st = (Ok tt, st') ->
            exists lines,
              log st' = log st ++ lines /\
              Forall (fun line =>
                        line = "raw_price column missing." \/
                        exists message,
                          line = message +:+ " Indices: " +:+
                                 all_labels_text (data st))
                lines)
    stages.
Proof.
  assert (Hform : forall condition message df,
            index condition = labels df ->
            Forall (fun line =>
                      line = "raw_price column missing." \/
                      exists message,
                        line = message +:+ " Indices: " +:+ all_labels_text df)
              (log_lines condition message)).
  { intros c m df H. eapply List.Forall_impl; [|by apply log_lines_all_labels].
    intros line ->. right. by exists m. }
  unfold stages. repeat apply List.Forall_cons; try apply List.Forall_nil;
    intros st st'.
  - rewrite validate_id_column_run.
    destruct (getitem _ _) as [ids|e] eqn:Hg; [|discriminate].
    apply getitem_inv in Hg as [_ ->]. intros [= <-].
    eexists. split; [reflexivity|]. apply Forall_app. split; apply Hform.
    + by rewrite index_smap, index_column.
    + unfold invert. by rewrite !index_smap, index_column.
  - rewrite validate_clean_price_run. destruct (has_column _ _).
    + destruct (str_accessor _); [|discriminate]. intros [= <-].
      eexists. split; [reflexivity|]. apply Hform.
      unfold index, labels. rewrite map_map. apply map_ext. by intros [i r].
    + intros [= <-]. eexists. split; [reflexivity|]. repeat constructor.
  - intros H. apply validate_living_area_rows in H as (_ & _ & _ & _ & L).
    eexists. split; [exact L|]. apply Hform.
    unfold index, labels. rewrite map_map. apply map_ext. by intros [i r].
  - intros H. apply filter_by_price_per_sqm_rows in H as (_ & _ & _ & _ & _ & L).
    exists []. rewrite app_nil_r. split; [exact L|constructor].
  - rewrite validate_property_type_run.
    destruct (getitem _ _) as [types|e] eqn:Hg; [|discriminate].
    apply getitem_inv in Hg as [_ ->]. intros [= <-].
    eexists. split; [reflexivity|]. apply Hform.
    unfold invert. by rewrite !index_smap, index_column.
  - rewrite validate_scraping_date_run.
    destruct (getitem _ _) as [dates|e] eqn:Hg; [|discriminate].
    apply getitem_inv in Hg as [_ ->]. intros [= <-].
    eexists. split; [reflexivity|]. apply Hform.
    unfold invert. by rewrite !index_smap, index_column.
Qed.

Lemma log_lines_name_all_rows_witness :
  let st := Sample.start Sample.priced in
  let st' := snd (validate_property_type st) in
  validate_property_type st = (Ok tt, st') /\
  all_labels_text (data st) = "0, 1" /\
  map (fun '(_, r) => cell r "property_type") (rows (data st)) =
    [VStr "apartment"; VStr "castle"] /\
  exists lines,
    log st' = log st ++ lines /\
    Forall (fun line =>
              line = "raw_price column missing." \/
              exists message,
                line = message +:+ " Indices: " +:+ all_labels_text (data st))
      lines.
Proof.
  intros st st'.
  assert (Hrun : validate_property_type st = (Ok tt, st')) by (vm_compute; reflexivity).
  split; [exact Hrun|]. split; [vm_compute; reflexivity|].
  split; [vm_compute; reflexivity|].
  pose proof log_lines_name_all_rows as H. unfold stages in H.
  do 4 apply List.Forall_cons_iff, proj2 in H.
  apply List.Forall_cons_iff, proj1 in H.
  exact (H st st' Hrun).
Defined.

Lemma smap_column {A B} (f : A -> B) (g : gmap string value -> A)
    (l : list (nat * gmap string value)) :
  smap f (map (fun '(i, r) => (i, g r)) l) = map (fun '(i, r) => (i, f (g r))) l.
Proof. unfold smap. rewrite map_map. apply map_ext. by intros [i r]. Qed.

Lemma index_rows {A} (g : gmap string value -> A)
    (l : list (nat * gmap string value)) :
  index (map (fun '(i, r) => (i, g r)) l) = map fst l.
Proof. unfold index. rewrite map_map. apply map_ext. by intros [i r]. Qed.

Lemma existsb_column (f : gmap string value -> bool)
    (l : list (nat * gmap string value)) :
  existsb snd (map (fun '(i, r) => (i, f r)) l) = true <->
  Exists (fun '(_, r) => f r = true) l.
Proof.
  rewrite existsb_exists, List.Exists_exists. split.
  - intros ([i b] & Hin & Hb). simpl in Hb. subst b.
    apply in_map_iff in Hin as ([i0 r] & [= _ Hf] & Hin). by exists (i0, r).
  - intros ([i r] & Hin & Hf). exists (i, true). split; [|reflexivity].
    apply in_map_iff. exists (i, r). by rewrite Hf.
Qed.

(** X11: a null id is logged twice.  When some row has a null id, the id
    check writes both of its lines, since the text of a null is not made of
    digits. *)
Theorem null_id_logged_twice st :
  has_column (data st) "id" = true ->
  Exists (fun '(_, r) => value_isnull (cell r "id") = true) (rows (data st)) ->
  validate_id_column st =
    (Ok tt,
     with_log st
       [ "Null IDs found. Indices: " +:+ all_labels_text (data st);
         "ID is not a string or numeric. Indices: " +:+ all_labels_text (data st) ]).
Proof.
  intros Hc Hnull. rewrite validate_id_column_run, (getitem_ok _ _ Hc).
  unfold invert. rewrite !smap_column. unfold log_lines, any.
  rewrite !index_rows.
  rewrite (proj2 (existsb_column (fun r => value_isnull (cell r "id")) _) Hnull).
  rewrite (proj2 (existsb_column
                    (fun r => negb (astype_str_isnumeric (cell r "id"))) _)).
  - reflexivity.
  - eapply List.Exists_impl; [|exact Hnull]. intros [i r] Hr.
    destruct (cell r "id") as [|z|f|s]; try discriminate; reflexivity.
Qed.

Lemma null_id_logged_twice_witness :
  let st := Sample.start Sample.null_id in
  has_column (data st) "id" = true /\
  map (fun '(_, r) => cell r "id") (rows (data st)) = [VStr "1"; VNull] /\
  validate_id_column st =
    (Ok tt,
     with_log st
       [ "Null IDs found. Indices: 0, 1";
         "ID is not a string or numeric. Indices: 0, 1" ]).
Proof.
  intros st. split; [reflexivity|]. split; [vm_compute; reflexivity|].
  rewrite (null_id_logged_twice st); [reflexivity|reflexivity|].
  apply List.Exists_cons_tl, List.Exists_cons_hd. vm_compute. reflexivity.
Defined.

(** X12: a [raw_price] column that holds a number and no string stops price
    cleaning with [AttributeError], before anything is changed or logged. *)
Theorem numeric_raw_price_raises st :
  has_column (data st) "raw_price" = true ->
  Forall (fun '(_, r) => is_str (cell r "raw_price") = false) (rows (data st)) ->
  Exists (fun '(_, r) => is_none (cell r "raw_price") = false) (rows (data st)) ->
  validate_clean_price st = (Raise AttributeError, st).
Proof.
  intros Hc Hstr Hnum. rewrite validate_clean_price_run, Hc.
  unfold str_accessor, values. rewrite map_map.
  assert (existsb is_str
            (map (fun x : nat * gmap string value =>
                    snd (let '(i, r) := x in (i, cell r "raw_price")))
               (rows (data st))) = false) as ->.
  { apply not_true_is_false. intros H.
    apply existsb_exists in H as (v & Hin & Hv).
    apply in_map_iff in Hin as ([i r] & <- & Hin).
    eapply List.Forall_forall in Hstr; [|exact Hin]. simpl in *. congruence. }
  assert (forallb is_none
            (map (fun x : nat * gmap string value =>
                    snd (let '(i, r) := x in (i, cell r "raw_price")))
               (rows (data st))) = false) as ->; [|reflexivity].
  apply not_true_is_false. intros H. rewrite forallb_forall in H.
  apply List.Exists_exists in Hnum as ([i r] & Hin & Hr).
  rewrite (H (cell r "raw_price")) in Hr; [discriminate|].
  apply in_map_iff. by exists (i, r).
Qed.

Lemma numeric_raw_price_raises_witness :
  let st := Sample.start Sample.numeric_raw in
  has_column (data st) "raw_price" = true /\
  map (fun '(_, r) => cell r "raw_price") (rows (data st)) = [VInt 200000; VNull] /\
  validate_clean_price st = (Raise AttributeError, st) /\
  fst (validate_and_clean st) = Raise AttributeError.
Proof.
  intros st. split; [reflexivity|]. split; [vm_compute; reflexivity|].
  split; [|vm_compute; reflexivity].
  apply numeric_raw_price_raises; [reflexivity| |].
  - repeat constructor.
  - apply List.Exists_cons_hd. vm_compute. reflexivity.
Defined.

(** X13: a record set with the columns of a listing and no row goes through
    the pipeline: nothing is removed, the only line that can be logged is
    the one about a missing [raw_price] column, and a [raw_price] column is
    replaced by a [price] column. *)
Theorem empty_record_set st :
  rows (data st) = [] ->
  has_column (data st) "id" = true ->
  has_column (data st) "living_area" = true ->
  has_column (data st) "property_type" = true ->
  has_column (data st) "scraping_date" = true ->
  has_column (data st) "price" || has_column (data st) "raw_price" = true ->
  validate_and_clean st =
    (Ok tt,
     {| data := price_cleaned (data st);
        log := log st ++
          (if has_column (data st) "raw_price" then []
           else ["raw_price column missing."]) |}).
Proof.
  intros Hrows Hid Ha Ht Hd Hp.
  assert (H1 : validate_id_column st = (Ok tt, st)).
  { rewrite validate_id_column_run, (getitem_ok _ _ Hid), Hrows. simpl.
    apply f_equal, with_log_nil. }
  set (s2 := {| data := price_cleaned (data st);
                log := log st ++
                  (if has_column (data st) "raw_price" then []
                   else ["raw_price column missing."]) |}).
  assert (H2 : validate_clean_price st = (Ok tt, s2)).
  { rewrite validate_clean_price_run. unfold s2, price_cleaned.
    destruct (has_column (data st) "raw_price"); [|reflexivity].
    by rewrite Hrows. }
  assert (Hrows2 : rows (data s2) = []).
  { unfold s2, price_cleaned; simpl.
    destruct (has_column (data st) "raw_price"); [|exact Hrows].
    unfold clean_price_frame; simpl. by rewrite Hrows. }
  assert (Hc2 : forall c, c <> "price" -> c <> "raw_price" ->
                  has_column (data s2) c = has_column (data st) c).
  { intros c ? ?. by apply price_cleaned_has_column. }
  assert (Hp2 : has_column (data s2) "price" = true).
  { unfold s2, price_cleaned; simpl.
    destruct (has_column (data st) "raw_price") eqn:Hraw.
    - apply clean_price_frame_has_price.
    - by rewrite orb_false_r in Hp. }
  destruct (validate_living_area_keeps_valid s2) as (s3 & H3 & D3 & L3).
  { by rewrite Hc2. } { rewrite Hrows2. constructor. }
  destruct (filter_by_price_per_sqm_keeps_valid s3) as (s4 & H4 & D4).
  { by rewrite D3. } { by rewrite D3, Hc2. } { rewrite D3, Hrows2. constructor. }
  pose proof (filter_by_price_per_sqm_rows _ _ H4) as (_ & _ & _ & _ & _ & L4).
  assert (E4 : s4 = s2).
  { destruct s4 as [d4 l4], s2 as [d2 l2]; simpl in *. f_equal; congruence. }
  subst s4.
  assert (H5 : validate_property_type s2 = (Ok tt, s2)).
  { rewrite validate_property_type_run, getitem_ok, Hrows2 by by rewrite Hc2.
    simpl. apply f_equal, with_log_nil. }
  assert (H6 : validate_scraping_date s2 = (Ok tt, s2)).
  { rewrite validate_scraping_date_run, getitem_ok, Hrows2 by by rewrite Hc2.
    simpl. apply f_equal, with_log_nil. }
  unfold validate_and_clean.
  rewrite (bind_ok _ _ _ _ _ H1), (bind_ok _ _ _ _ _ H2), (bind_ok _ _ _ _ _ H3),
    (bind_ok _ _ _ _ _ H4), (bind_ok _ _ _ _ _ H5).
  exact H6.
Qed.

Lemma empty_record_set_witness :
  let st := Sample.start Sample.header_only in
  rows (data st) = [] /\
  validate_and_clean st =
    (Ok tt,
     {| data := {| columns := ["id"; "living_area"; "property_type";
                               "scraping_date"; "price"];
                   rows := [] |};
        log := [] |}).
Proof.
  intros st. split; [reflexivity|].
  by rewrite (empty_record_set st).
Defined.

(** X14: an empty JSON array (encoded as a JSON string) loads as a frame
    without columns, on which the id check raises [KeyError] for [id]
    before anything is logged; the main block then writes no output. *)
Theorem empty_json_array_aborts
    (json_loads : string -> option json)
    (read_csv read_avro : string -> result DataFrame)
    (fs : string -> option string) (path content s : string) :
  lower (suffix path) = ".json" ->
  fs path = Some content ->
  json_loads content = Some (JStr s) ->
  json_loads s = Some (JList []) ->
  DataProcessor_init json_loads read_csv read_avro fs path =
    Ok {| columns := []; rows := [] |} /\
  (forall lg,
     validate_and_clean {| data := {| columns := []; rows := [] |}; log := lg |} =
       (Raise (KeyError "id"),
        {| data := {| columns := []; rows := [] |}; log := lg |})) /\
  main json_loads read_csv read_avro fs path = (None, []).
Proof.
  intros Hext Hfs Hs Hl.
  assert (Hinit : DataProcessor_init json_loads read_csv read_avro fs path =
                  Ok {| columns := []; rows := [] |}).
  { unfold DataProcessor_init. rewrite Hfs, (load_data_json _ _ _ _ _ Hext).
    by rewrite (decode_content_double _ _ _ _ Hs Hl). }
  split; [exact Hinit|]. split; [reflexivity|].
  unfold main. by rewrite Hinit.
Qed.

Lemma empty_json_array_aborts_witness :
  let fs := Sample.one_file (Json.dumps_str "[]") in
  lower (suffix "data/listings.json") = ".json" /\
  Json.loads (Json.dumps_str "[]") = Some (JStr "[]") /\
  Json.loads "[]" = Some (JList []) /\
  main Json.loads Sample.no_reader Sample.no_reader fs "data/listings.json" =
    (None, []).
Proof.
  intros fs. split; [reflexivity|]. split; [reflexivity|]. split; [reflexivity|].
  exact (proj2 (proj2 (empty_json_array_aborts Json.loads Sample.no_reader
           Sample.no_reader fs "data/listings.json" (Json.dumps_str "[]") "[]"
           eq_refl eq_refl eq_refl eq_refl))).
Defined.

(** ** The main block *)

(** X15: the main block writes an output only when the file loads and the
    pipeline returns; what it writes is the record set the pipeline leaves,
    whose rows all pass both range tests, and the log then holds at most six
    entries.  A missing input file or a failed load writes no output and no
    log entry. *)
Theorem main_writes_only_clean_output
    (json_loads : string -> option json)
    (read_csv read_avro : string -> result DataFrame)
    (fs : string -> option string) (path : string) :
  (fs path = None ->
   DataProcessor_init json_loads read_csv read_avro fs path = Raise FileNotFoundError) /\
  (forall e,
     DataProcessor_init json_loads read_csv read_avro fs path = Raise e ->
     main json_loads read_csv read_avro fs path = (None, [])) /\
  (forall out lg,
     main json_loads read_csv read_avro fs path = (Some out, lg) ->
     exists df,
       DataProcessor_init json_loads read_csv read_avro fs path = Ok df /\
       validate_and_clean {| data := df; log := [] |} =
         (Ok tt, {| data := out; log := lg |}) /\
       Forall (fun '(_, r) => ppsqm_valid r = true /\ area_valid r = true)
         (rows out) /\
       (length lg <= 6)%nat).
Proof.
  split; [|split].
  - intros H. unfold DataProcessor_init. by rewrite H.
  - intros e H. unfold main. by rewrite H.
  - intros out lg. unfold main.
    destruct (DataProcessor_init _ _ _ _ _) as [df|e]; [|discriminate].
    destruct (validate_and_clean _) as [[[]|e] [d l]] eqn:Hrun; [|discriminate].
    simpl. intros [= <- <-]. exists df. split; [reflexivity|].
    split; [exact Hrun|]. split.
    + exact (survivors _ _ Hrun).
    + destruct (validate_and_clean_appends_at_most {| data := df; log := [] |})
        as (lines & Hl & Hk).
      rewrite Hrun in Hl. simpl in Hl. by rewrite Hl.
Qed.

Lemma main_writes_only_clean_output_witness :
  let fs := Sample.one_file (Json.dumps_str Sample.listings_text) in
  let out := main Json.loads Sample.no_reader Sample.no_reader fs
               "data/listings.json" in
  (exists df, fst out = Some df /\ labels df = [0%nat]) /\
  snd out = ["raw_price column missing."] /\
  forall df lg, out = (Some df, lg) ->
    Forall (fun '(_, r) => ppsqm_valid r = true /\ area_valid r = true) (rows df).
Proof.
  intros fs out. split; [|split].
  - destruct (fst out) as [df|] eqn:H; [|vm_compute in H; discriminate H].
    exists df. split; [reflexivity|].
    vm_compute in H. by injection H as <-.
  - vm_compute. reflexivity.
  - intros df lg H.
    destruct (proj2 (proj2 (main_writes_only_clean_output Json.loads
                Sample.no_reader Sample.no_reader fs "data/listings.json"))
                df lg H) as (df0 & _ & _ & Hall & _).
    exact Hall.
Defined.

(** ** The checks of the scenario script on the output of the pipeline *)

Lemma any_invert (c : Series bool) : any (invert c) = negb (forallb snd c).
Proof.
  unfold any, invert, smap. induction c as [|[i b] c IH]; [reflexivity|].
  simpl. rewrite IH. by destruct b.
Qed.

Lemma log_lines_nil_iff c message : log_lines c message = [] <-> any c = false.
Proof. unfold log_lines. by destruct (any c). Qed.

Lemma app_eq_self {A} (l x : list A) : l ++ x = l <-> x = [].
Proof.
  split; [|intros ->; apply app_nil_r].
  intros H. apply (app_inv_head l). by rewrite app_nil_r.
Qed.

(** X16: on the record set the pipeline leaves, the first check of the
    scenario script, that every price per living area lies between 500 and
    15000, evaluates to true, without raising. *)
Theorem scenario_condition_1_holds st st' :
  validate_and_clean st = (Ok tt, st') ->
  TestScenarios.condition_1 (data st') = Ok true.
Proof.
  intros H. pose proof (validate_and_clean_columns _ _ H) as (_ & Hp & Ha & _).
  apply survivors in H.
  unfold TestScenarios.condition_1.
  rewrite (getitem_ok _ _ Hp), (getitem_ok _ _ Ha). simpl.
  destruct (truediv_columns_ok (rows (data st')) "price" "living_area")
    as [ppm Hppm].
  { eapply List.Forall_impl; [|exact H]. intros [i r] [Hr _].
    by apply ppsqm_valid_ok. }
  rewrite Hppm. simpl. f_equal.
  apply truediv_columns in Hppm as [_ Hval]. rewrite (Hval Float64.nan).
  unfold smap. rewrite map_map. apply forallb_forall. intros [i b] Hin.
  apply in_map_iff in Hin as ([i0 r] & [= _ <-] & Hin).
  eapply List.Forall_forall in H; [|exact Hin]. destruct H as [Hr _].
  unfold ppsqm_valid in Hr. simpl. by destruct (truediv_cell _ _).
Qed.

Lemma scenario_condition_1_holds_witness :
  let st := Sample.start Sample.priced in
  let st' := snd (validate_and_clean st) in
  validate_and_clean st = (Ok tt, st') /\
  TestScenarios.condition_1 (data st) = Ok false /\
  TestScenarios.condition_1 (data st') = Ok true.
Proof.
  intros st st'.
  assert (Hrun : validate_and_clean st = (Ok tt, st')) by (vm_compute; reflexivity).
  split; [exact Hrun|]. split; [vm_compute; reflexivity|].
  exact (scenario_condition_1_holds st st' Hrun).
Defined.

(** X17: the second and third checks of the scenario script are not
    guaranteed by the pipeline.  On the record set the pipeline leaves, the
    property-type check of the script is true exactly when the property-type
    stage logged nothing, and its date check is true exactly when the
    scraping-date stage logged nothing. *)
Theorem scenario_conditions_2_3_follow_log st st' :
  validate_and_clean st = (Ok tt, st') ->
  exists st4 st5,
    validate_property_type st4 = (Ok tt, st5) /\
    validate_scraping_date st5 = (Ok tt, st') /\
    data st4 = data st' /\ data st5 = data st' /\
    (TestScenarios.condition_2 (data st') = Ok true <-> log st5 = log st4) /\
    (TestScenarios.condition_3 (data st') = Ok true <-> log st' = log st5).
Proof.
  intros H. apply validate_and_clean_inv in H
    as (st1 & st2 & st3 & st4 & st5 & _ & _ & _ & _ & H5 & H6).
  exists st4, st5.
  pose proof (validate_property_type_data _ _ _ H5) as D5.
  pose proof (validate_scraping_date_data _ _ _ H6) as D6.
  split; [exact H5|]. split; [exact H6|].
  split; [by rewrite D6, D5|]. split; [by rewrite D6|].
  rewrite validate_property_type_run in H5.
  rewrite validate_scraping_date_run in H6.
  unfold TestScenarios.condition_2, TestScenarios.condition_3.
  rewrite D6 at 1. rewrite D6, D5 at 1.
  destruct (getitem (data st4) "property_type") as [types|e]; [|discriminate].
  destruct (getitem (data st5) "scraping_date") as [dates|e]; [|discriminate].
  injection H5 as <-. injection H6 as <-. simpl. split.
  - rewrite app_eq_self, log_lines_nil_iff, any_invert, negb_false_iff.
    unfold VALID_PROPERTY_TYPES. split; [by intros [= ->]|by intros ->].
  - rewrite app_eq_self, log_lines_nil_iff, any_invert, negb_false_iff.
    split; [by intros [= ->]|by intros ->].
Qed.

Lemma scenario_conditions_2_3_follow_log_witness :
  let st := Sample.start Sample.shifted in
  let st' := snd (validate_and_clean st) in
  validate_and_clean st = (Ok tt, st') /\
  TestScenarios.condition_2 (data st') = Ok false /\
  TestScenarios.condition_3 (data st') = Ok true /\
  log st' =
    ["raw_price column missing.";
     "Invalid property types. Only 'apartment' or 'house' are allowed. Indices: 1"] /\
  exists st4 st5,
    data st4 = data st' /\
    (TestScenarios.condition_2 (data st') = Ok true <-> log st5 = log st4) /\
    (TestScenarios.condition_3 (data st') = Ok true <-> log st' = log st5).
Proof.
  intros st st'.
  assert (Hrun : validate_and_clean st = (Ok tt, st')) by (vm_compute; reflexivity).
  split; [exact Hrun|]. split; [vm_compute; reflexivity|].
  split; [vm_compute; reflexivity|]. split; [vm_compute; reflexivity|].
  destruct (scenario_conditions_2_3_follow_log st st' Hrun)
    as (st4 & st5 & _ & _ & D4 & _ & H2 & H3).
  exists st4, st5. split; [exact D4|]. split; [exact H2|exact H3].
Defined.
